(** * Smart planter: the capture manager, the HTTP layer and the configuration

    A shallow embedding of [src/camera/camera.py], [src/app/app.py],
    [config.py], [main.py] and [src/utils/logger.py], and the properties of
    the specification settled against it.

    Conventions.  POSIX times (what [time.time()] and [os.path.getctime]
    return) are integers counting microseconds since the epoch.  A naive
    local [datetime] is the record of its calendar fields, as CPython
    stores it.  The file system is a finite map from paths to regular
    files together with the set of existing directories.  Effects (clock
    reads, file writes, camera calls, [print]) are threaded through an
    explicit [World].  Library calls answer as they are documented to for
    the arguments the code passes: [cv2.imwrite] tells a failed write by
    its result, and the clock stays within the years a [datetime] holds. *)

From Stdlib Require Import ZArith Ascii String List Lia Bool.
From stdpp Require Import base tactics option list gmap strings fin_maps.

Local Open Scope string_scope.
Local Open Scope Z_scope.

(* ===================================================================== *)
(** * Naive datetimes (the [datetime] module, as far as the code uses it) *)
(* ===================================================================== *)

Module Datetime.

Record datetime : Type := mkDatetime {
  year : Z; month : Z; day : Z;
  hour : Z; minute : Z; second : Z;
  microsecond : Z
}.

(** The invariant of a [datetime] object (1 <= year <= 9999 and so on). *)
Definition is_leap (y : Z) : bool :=
  (y mod 4 =? 0) && (negb (y mod 100 =? 0) || (y mod 400 =? 0)).

Definition days_in_month (y m : Z) : Z :=
  if m =? 2 then (if is_leap y then 29 else 28)
  else if (m =? 4) || (m =? 6) || (m =? 9) || (m =? 11) then 30
  else 31.

Definition valid (t : datetime) : Prop :=
  1 <= year t <= 9999 /\ 1 <= month t <= 12 /\
  1 <= day t <= days_in_month (year t) (month t) /\
  0 <= hour t <= 23 /\ 0 <= minute t <= 59 /\ 0 <= second t <= 59 /\
  0 <= microsecond t <= 999999.

Definition validb (t : datetime) : bool :=
  (1 <=? year t) && (year t <=? 9999) && (1 <=? month t) && (month t <=? 12) &&
  (1 <=? day t) && (day t <=? days_in_month (year t) (month t)) &&
  (0 <=? hour t) && (hour t <=? 23) && (0 <=? minute t) && (minute t <=? 59) &&
  (0 <=? second t) && (second t <=? 59) &&
  (0 <=? microsecond t) && (microsecond t <=? 999999).

(** [datetime.__lt__]: comparison of the field tuples, most significant
    field first. *)
Fixpoint lex_ltb (a b : list Z) : bool :=
  match a, b with
  | x :: a', y :: b' => (x <? y) || ((x =? y) && lex_ltb a' b')
  | _, _ => false
  end.

Definition fields (t : datetime) : list Z :=
  [year t; month t; day t; hour t; minute t; second t; microsecond t].

Definition ltb (a b : datetime) : bool := lex_ltb (fields a) (fields b).

(** Proleptic Gregorian ordinals: [_days_before_year], [_days_before_month],
    [_ymd2ord] and [_ord2ymd] of CPython's [datetime]. *)
Definition days_before_year (y : Z) : Z :=
  let y' := y - 1 in y' * 365 + y' / 4 - y' / 100 + y' / 400.

Definition DAYS_BEFORE_MONTH (m : Z) : Z :=
  nth (Z.to_nat m) [0; 0; 31; 59; 90; 120; 151; 181; 212; 243; 273; 304; 334] 0.

Definition DAYS_IN_MONTH (m : Z) : Z :=
  nth (Z.to_nat m) [0; 31; 28; 31; 30; 31; 30; 31; 31; 30; 31; 30; 31] 0.

Definition days_before_month (y m : Z) : Z :=
  DAYS_BEFORE_MONTH m + (if (2 <? m) && is_leap y then 1 else 0).

Definition ymd2ord (y m d : Z) : Z :=
  days_before_year y + days_before_month y m + d.

Definition DI400Y : Z := 146097.
Definition DI100Y : Z := 36524.
Definition DI4Y : Z := 1461.

Definition ord2ymd (ordinal : Z) : Z * Z * Z :=
  let n := ordinal - 1 in
  let n400 := n / DI400Y in let n := n mod DI400Y in
  let y := n400 * 400 + 1 in
  let n100 := n / DI100Y in let n := n mod DI100Y in
  let n4 := n / DI4Y in let n := n mod DI4Y in
  let n1 := n / 365 in let n := n mod 365 in
  let y := y + n100 * 100 + n4 * 4 + n1 in
  if (n1 =? 4) || (n100 =? 4) then (y - 1, 12, 31)
  else
    let leapyear := (n1 =? 3) && (negb (n4 =? 24) || (n100 =? 3)) in
    let m := Z.shiftr (n + 50) 5 in
    let preceding := DAYS_BEFORE_MONTH m + (if (2 <? m) && leapyear then 1 else 0) in
    if n <? preceding then
      let m' := m - 1 in
      let preceding' :=
        preceding - (DAYS_IN_MONTH m' + (if (m' =? 2) && leapyear then 1 else 0)) in
      (y, m', n - preceding' + 1)
    else (y, m, n - preceding + 1).

Definition toordinal (t : datetime) : Z := ymd2ord (year t) (month t) (day t).

(** [t - datetime.timedelta(days=n)]: the date moves back [n] days, the
    time of day is kept.  CPython raises [OverflowError] when the result
    leaves the years 1..9999; no clock reading gets there, and the
    arithmetic below is simply continued. *)
Definition sub_days (t : datetime) (n : Z) : datetime :=
  let '(y, m, d) := ord2ymd (toordinal t - n) in
  mkDatetime y m d (hour t) (minute t) (second t) (microsecond t).

(** The ordinal of 1970-01-01. *)
Definition EPOCH_ORDINAL : Z := 719163.

Section Local_time.
(** The platform's time-zone rule: seconds east of UTC in force at a
    given POSIX second. *)
Variable utcoffset : Z -> Z.

(** [datetime.datetime.fromtimestamp(ts)], [ts] in microseconds. *)
Definition fromtimestamp (ts : Z) : datetime :=
  let secs := ts / 1000000 in
  let local := secs + utcoffset secs in
  let '(y, m, d) := ord2ymd (EPOCH_ORDINAL + local / 86400) in
  let sod := local mod 86400 in
  mkDatetime y m d (sod / 3600) (sod mod 3600 / 60) (sod mod 60) (ts mod 1000000).
End Local_time.

(** The instant truncated to whole seconds. *)
Definition to_the_second (t : datetime) : datetime :=
  mkDatetime (year t) (month t) (day t) (hour t) (minute t) (second t) 0.

(** ** [strftime] *)

Definition digit (d : Z) : ascii := ascii_of_nat (48 + Z.to_nat d).

(** [v] in decimal, zero-padded to [width] digits, in front of [acc]. *)
Fixpoint zpad (width : nat) (v : Z) (acc : string) : string :=
  match width with
  | O => acc
  | S k => zpad k (v / 10) (String (digit (v mod 10)) acc)
  end.

(** One conversion of the format: [%Y] is the year in four digits,
    [%m %d %H %M %S] are two digits each, [%f] six, [%%] a percent sign. *)
Definition directive (c : ascii) (t : datetime) (rest : string) : string :=
  if Ascii.eqb c "Y"%char then zpad 4 (year t) rest
  else if Ascii.eqb c "m"%char then zpad 2 (month t) rest
  else if Ascii.eqb c "d"%char then zpad 2 (day t) rest
  else if Ascii.eqb c "H"%char then zpad 2 (hour t) rest
  else if Ascii.eqb c "M"%char then zpad 2 (minute t) rest
  else if Ascii.eqb c "S"%char then zpad 2 (second t) rest
  else if Ascii.eqb c "f"%char then zpad 6 (microsecond t) rest
  else if Ascii.eqb c "%"%char then String "%"%char rest
  else String "%"%char (String c rest).

Fixpoint strftime (fmt : string) (t : datetime) : string :=
  match fmt with
  | EmptyString => EmptyString
  | String c fmt' =>
      if Ascii.eqb c "%"%char then
        match fmt' with
        | EmptyString => String c EmptyString
        | String d fmt'' => directive d t (strftime fmt'' t)
        end
      else String c (strftime fmt' t)
  end.

(** [datetime.isoformat()]: the fraction is left out when it is zero. *)
Definition isoformat (t : datetime) : string :=
  if microsecond t =? 0 then strftime "%Y-%m-%dT%H:%M:%S" t
  else strftime "%Y-%m-%dT%H:%M:%S.%f" t.

End Datetime.

Import Datetime.

(* ===================================================================== *)
(** * Paths and patterns ([os.path], [fnmatch], [glob]) *)
(* ===================================================================== *)

Module Path.

Definition SEP : ascii := "/"%char.

Fixpoint contains_sep (s : string) : bool :=
  match s with
  | EmptyString => false
  | String c s' => Ascii.eqb c SEP || contains_sep s'
  end.

Definition last_char (s : string) : option ascii :=
  String.get (String.length s - 1)%nat s.

(** [os.path.join(a, b)] on POSIX. *)
Definition join (a b : string) : string :=
  if String.prefix "/" b then b
  else if String.eqb a "" then b
  else match last_char a with
       | Some c => if Ascii.eqb c SEP then a ++ b else a ++ "/" ++ b
       | None => b
       end.

(** [Some d] when [p] has a separator, [d] being what stands before the
    last one; [None] for a bare name. *)
Fixpoint split_last (p : string) : option string :=
  match p with
  | EmptyString => None
  | String c r =>
      match split_last r with
      | Some d => Some (String c d)
      | None => if Ascii.eqb c SEP then Some EmptyString else None
      end
  end.

(** [rest] when [s = pre ++ rest]. *)
Fixpoint strip_prefix (pre s : string) : option string :=
  match pre with
  | EmptyString => Some s
  | String c pre' =>
      match s with
      | String d s' => if Ascii.eqb c d then strip_prefix pre' s' else None
      | EmptyString => None
      end
  end.

(** The name under which [path] is listed in directory [dir], if it lies
    directly inside it. *)
Definition entry_name (dir path : string) : option string :=
  match strip_prefix (join dir "") path with
  | Some n => if String.eqb n "" || contains_sep n then None else Some n
  | None => None
  end.

(** [fnmatch.fnmatchcase] for patterns made of literal characters, [?]
    and [*]. *)
Fixpoint fnmatch (pat name : string) : bool :=
  match pat with
  | EmptyString => String.eqb name ""
  | String c pat' =>
      if Ascii.eqb c "*"%char then
        (fix star (n : string) : bool :=
           fnmatch pat' n ||
           match n with
           | EmptyString => false
           | String _ n' => star n'
           end) name
      else
        match name with
        | EmptyString => false
        | String d name' =>
            (Ascii.eqb c "?"%char || Ascii.eqb c d) && fnmatch pat' name'
        end
  end.

(** [glob] leaves out names with a leading dot unless the pattern has one. *)
Definition hidden (name : string) : bool := String.prefix "." name.

Definition glob_match (dir pat path : string) : bool :=
  match entry_name dir path with
  | Some n => (negb (hidden n) || hidden pat) && fnmatch pat n
  | None => false
  end.

End Path.

(* ===================================================================== *)
(** * The world the capture manager runs in *)
(* ===================================================================== *)

(** A picture as the sensor delivers it. *)
Definition Frame : Type := Z.

Inductive Content : Type :=
  | Jpeg (frame : Frame) (quality : Z)   (* JPEG encoding of a frame *)
  | Bytes (data : string).               (* anything else *)

Record File : Type := mkFile { content : Content; ctime : Z }.

Record Device : Type := mkDevice {
  available : bool;          (* [VideoCapture(0)] can open it *)
  held : bool;               (* a capture handle of this process is open *)
  frame_width : Z;
  frame_height : Z;
  pending : list Frame       (* the frames the next reads deliver *)
}.

Record World : Type := mkWorld {
  dirs : gset string;        (* existing directories *)
  files : gmap string File;  (* regular files, by path *)
  device : Device;
  clock : nat -> Z;          (* successive readings of the system clock *)
  ticks : nat;               (* readings taken so far *)
  stdout : list string
}.

Inductive exn : Type :=
  | FileNotFoundError (path : string)
  | ValueError (literal : string)
  | AttributeError (name : string)
  | OSError (what : string).

Definition set_files (fs : gmap string File) (w : World) : World :=
  mkWorld (dirs w) fs (device w) (clock w) (ticks w) (stdout w).
Definition set_dirs (ds : gset string) (w : World) : World :=
  mkWorld ds (files w) (device w) (clock w) (ticks w) (stdout w).
Definition set_device (d : Device) (w : World) : World :=
  mkWorld (dirs w) (files w) d (clock w) (ticks w) (stdout w).
Definition print (line : string) (w : World) : World :=
  mkWorld (dirs w) (files w) (device w) (clock w) (ticks w) (stdout w ++ [line]).

(** [time.time()]: the next reading of the clock. *)
Definition time_time (w : World) : Z * World :=
  (clock w (ticks w),
   mkWorld (dirs w) (files w) (device w) (clock w) (S (ticks w)) (stdout w)).

(** ** OpenCV *)
Module cv2.

(** The handle [cap]: whether it is opened. *)
Definition VideoCapture (w : World) : bool * World :=
  let d := device w in
  if available d && negb (held d) then
    (true, set_device (mkDevice (available d) true (frame_width d) (frame_height d) (pending d)) w)
  else (false, w).

Definition isOpened (cap : bool) : bool := cap.

Definition set_FRAME_WIDTH (v : Z) (w : World) : World :=
  let d := device w in
  set_device (mkDevice (available d) (held d) v (frame_height d) (pending d)) w.

Definition set_FRAME_HEIGHT (v : Z) (w : World) : World :=
  let d := device w in
  set_device (mkDevice (available d) (held d) (frame_width d) v (pending d)) w.

(** [cap.read()] is [(ret, frame)]: [None] stands for [(False, None)]. *)
Definition read (w : World) : option Frame * World :=
  let d := device w in
  match pending d with
  | [] => (None, w)
  | f :: rest =>
      (Some f, set_device (mkDevice (available d) (held d) (frame_width d) (frame_height d) rest) w)
  end.

Definition release (cap : bool) (w : World) : World :=
  let d := device w in
  if cap then set_device (mkDevice (available d) false (frame_width d) (frame_height d) (pending d)) w
  else w.

(** [cv2.imwrite(path, frame, [IMWRITE_JPEG_QUALITY, q])]: the file is
    created or replaced when its directory exists, and the call answers
    [False] without writing otherwise. *)
Definition parent_exists (path : string) (w : World) : bool :=
  match Path.split_last path with
  | None => true
  | Some d => String.eqb d "" || bool_decide (d ∈ dirs w)
  end.

Definition imwrite (path : string) (frame : Frame) (quality : Z) (w : World) : bool * World :=
  if parent_exists path w then
    let '(ts, w1) := time_time w in
    (true, set_files (<[path := mkFile (Jpeg frame quality) ts]> (files w1)) w1)
  else (false, w).

End cv2.

(* ===================================================================== *)
(** * [src/camera/camera.py] *)
(* ===================================================================== *)

Definition SAVE_DIR : string := "plant_images".
Definition IMAGE_WIDTH : Z := 1280.
Definition IMAGE_HEIGHT : Z := 720.
Definition RETENTION_DAYS : Z := 90.
Definition JPEG_QUALITY : Z := 95.

(** The format handed to [strftime] in [get_file_name]. *)
Definition FILE_NAME_FORMAT : string := "%Y%m%d_%H%M%S.jpg".

(** The name made from a clock reading [now]. *)
Definition file_name_of (now : datetime) : string := strftime FILE_NAME_FORMAT now.

Section Capture.
(** [datetime.datetime.fromtimestamp] on this platform: the local time of a
    POSIX time.  [Datetime.fromtimestamp] is the one of a given time zone. *)
Variable fromtimestamp : Z -> datetime.

(** [datetime.datetime.now()] *)
Definition datetime_now (w : World) : datetime * World :=
  let '(ts, w1) := time_time w in (fromtimestamp ts, w1).

Definition get_file_name (w : World) : string * World :=
  let '(now, w1) := datetime_now w in (file_name_of now, w1).

(** The result of [cv2.imwrite] is dropped. *)
Definition save_image (frame : Frame) (file_path : string) (w : World) : World :=
  snd (cv2.imwrite file_path frame JPEG_QUALITY w).

(** [glob.glob(os.path.join(SAVE_DIR, "*.jpg"))].  The entries of the
    capture directory are regular files. *)
Definition glob_images (w : World) : list string :=
  List.filter (Path.glob_match SAVE_DIR "*.jpg") (map fst (map_to_list (files w))).

(** The body of the [for] loop; an exception ends the loop and leaves
    the files as they are at that point. *)
Definition sweep_step (cutoff_date : datetime) (st : World * option exn)
    (file_path : string) : World * option exn :=
  match st with
  | (w, Some e) => (w, Some e)
  | (w, None) =>
      match files w !! file_path with
      | None => (w, Some (FileNotFoundError file_path))
      | Some f =>
          let timestamp := ctime f in
          let file_date := fromtimestamp timestamp in
          if Datetime.ltb file_date cutoff_date
          then (set_files (delete file_path (files w)) w, None)
          else (w, None)
      end
  end.

Definition delete_old_images (w : World) : World * option exn :=
  let '(today, w1) := datetime_now w in
  let cutoff_date := sub_days today RETENTION_DAYS in
  let image_files := glob_images w1 in
  fold_left (sweep_step cutoff_date) image_files (w1, None).

(** [os.path.exists]: a directory or a regular file of that name. *)
Definition os_path_exists (path : string) (w : World) : bool :=
  bool_decide (path ∈ dirs w) || bool_decide (is_Some (files w !! path)).

(** [PlantCaptureManager.__init__] *)
Definition PlantCaptureManager_init (w : World) : World :=
  if os_path_exists SAVE_DIR w then w
  else print ("ディレクトリを作成しました: " ++ SAVE_DIR)
             (set_dirs ({[SAVE_DIR]} ∪ dirs w) w).

(** [PlantCaptureManager.capture_and_save] *)
Definition capture_and_save (w : World) : World * option exn :=
  let '(cap, w) := cv2.VideoCapture w in
  if negb (cv2.isOpened cap) then
    (print "エラー: カメラに接続できませんでした。" w, None)
  else
    let w := cv2.set_FRAME_WIDTH IMAGE_WIDTH w in
    let w := cv2.set_FRAME_HEIGHT IMAGE_HEIGHT w in
    let '(ret, w) := cv2.read w in
    match ret with
    | None =>
        let w := print "エラー: フレームを読み込めませんでした。" w in
        (cv2.release cap w, None)
    | Some frame =>
        let '(file_name, w) := get_file_name w in
        let file_path := Path.join SAVE_DIR file_name in
        let w := save_image frame file_path w in
        let w := cv2.release cap w in
        delete_old_images w
    end.

End Capture.

(** Japan standard time, the zone the planter runs in. *)
Definition JST : Z -> Z := fun _ => 32400.

(** 2025-09-10T10:00:00 JST in microseconds since the epoch. *)
Definition T_2025_09_10_100000 : Z := 1757466000 * 1000000.

(** Local time in that zone. *)
Definition JST_time : Z -> datetime := Datetime.fromtimestamp JST.

(* ===================================================================== *)
(** * [src/app/app.py] *)
(* ===================================================================== *)

Inductive json : Type :=
  | JString (s : string)
  | JInt (z : Z).

(** What [jsonify] sends: a status code and the members of the object. *)
Record Response : Type := mkResponse {
  status_code : Z;
  body : list (string * json)
}.

Definition jsonify (members : list (string * json)) : Response :=
  mkResponse 200 members.

Definition member (key : string) (r : Response) : option json :=
  snd <$> List.find (fun kv => String.eqb (fst kv) key) (body r).

Definition keys (r : Response) : list string := map fst (body r).

(** The server: the world of the capture manager and the log of the
    application. *)
Record Server : Type := mkServer {
  world : World;
  log : list string
}.

Section App.
Variable fromtimestamp : Z -> datetime.

Definition logger_info (line : string) (s : Server) : Server :=
  mkServer (world s) (log s ++ [line]).

Definition api_status (s : Server) : Response * Server :=
  let '(now, w) := datetime_now fromtimestamp (world s) in
  (jsonify [("status", JString "running");
            ("timestamp", JString (isoformat now));
            ("version", JString "1.0.0")],
   mkServer w (log s)).

Definition api_watering (s : Server) : Response * Server :=
  let s := logger_info "手動給水が実行されました" s in
  let '(now, w) := datetime_now fromtimestamp (world s) in
  (jsonify [("status", JString "success");
            ("message", JString "給水が完了しました");
            ("timestamp", JString (isoformat now))],
   mkServer w (log s)).

End App.

(* ===================================================================== *)
(** * [config.py] *)
(* ===================================================================== *)

Module Config.

Definition is_space (c : ascii) : bool :=
  let n := nat_of_ascii c in
  ((9 <=? n) && (n <=? 13) || (n =? 32) || ((28 <=? n) && (n <=? 31)))%nat.

Definition is_digit (c : ascii) : bool :=
  let n := nat_of_ascii c in ((48 <=? n) && (n <=? 57))%nat.

Definition digit_value (c : ascii) : Z := Z.of_nat (nat_of_ascii c) - 48.

Fixpoint lstrip (s : string) : string :=
  match s with
  | String c s' => if is_space c then lstrip s' else s
  | EmptyString => s
  end.

Definition strip (s : string) : string :=
  String.rev (lstrip (String.rev (lstrip s))).

(** Decimal digits with single underscores between them; [prev] tells
    whether the character before was a digit. *)
Fixpoint digits (s : string) (prev : bool) (acc : Z) : option Z :=
  match s with
  | EmptyString => if prev then Some acc else None
  | String c s' =>
      if is_digit c then digits s' true (acc * 10 + digit_value c)
      else if Ascii.eqb c "_"%char && prev then digits s' false acc
      else None
  end.

(** [int(s)] for a string of ASCII characters, shorter than the
    interpreter's limit on the digits of a literal: [None] is
    [ValueError]. *)
Definition int_of_string (s : string) : option Z :=
  match strip s with
  | String c s' =>
      if Ascii.eqb c "-"%char then Z.opp <$> digits s' false 0
      else if Ascii.eqb c "+"%char then digits s' false 0
      else digits (String c s') false 0
  | EmptyString => None
  end.

(** [int(os.environ.get(key, default))] with an integer default. *)
Definition environ_int (environ : gmap string string) (key : string) (default : Z)
  : exn + Z :=
  match environ !! key with
  | None => inr default
  | Some s =>
      match int_of_string s with
      | Some z => inr z
      | None => inl (ValueError s)
      end
  end.

Definition environ_get (environ : gmap string string) (key default : string) : string :=
  match environ !! key with Some s => s | None => default end.

Record Config : Type := mkConfig {
  PROJECT_NAME : string;
  VERSION : string;
  SECRET_KEY : string;
  DEBUG : bool;
  DATA_BASE_PATH : string;
  SENSOR_CHECK_INTERVAL : Z;
  TEMPERATURE_HUMIDITY_INTERVAL : Z;
  SOIL_MOISTURE_INTERVAL : Z;
  SOIL_MOISTURE_THRESHOLD : Z;
  WATERING_INTERVAL_HOURS : Z;
  WATERING_DURATION_SECONDS : Z;
  WATER_AMOUNT_ML : Z;
  CAMERA_RESOLUTION_WIDTH : Z;
  CAMERA_RESOLUTION_HEIGHT : Z;
  AUTO_CAPTURE_TIME : string;
  LINE_NOTIFY_TOKEN : option string;
  LINE_NOTIFY_API_URL : string;
  LOG_LEVEL : string;
  LOG_FILE_PATH : string
}.

(** The settings read through [int], with their defaults, in the order
    of the class body. *)
Definition INT_SETTINGS : list (string * Z) :=
  [("SENSOR_CHECK_INTERVAL", 60);
   ("TEMPERATURE_HUMIDITY_INTERVAL", 1800);
   ("SOIL_MOISTURE_INTERVAL", 300);
   ("SOIL_MOISTURE_THRESHOLD", 159);
   ("WATERING_INTERVAL_HOURS", 12);
   ("WATERING_DURATION_SECONDS", 5);
   ("WATER_AMOUNT_ML", 100);
   ("CAMERA_RESOLUTION_WIDTH", 1280);
   ("CAMERA_RESOLUTION_HEIGHT", 720)].

(** An exception raised in the class body ends it. *)
Definition bind {A B : Type} (m : exn + A) (k : A -> exn + B) : exn + B :=
  match m with
  | inl e => inl e
  | inr a => k a
  end.

Notation "x <- m ;; k" := (bind m (fun x => k))
  (at level 100, m at next level, right associativity).

(** Executing the body of [class Config]: the assignments in order. *)
Definition load (environ : gmap string string) : exn + Config :=
  let secret_key := environ_get environ "SECRET_KEY" "dev-secret-key-change-in-production" in
  let data_base_path := environ_get environ "DATA_BASE_PATH" "/mnt/usb-storage" in
  sci <- environ_int environ "SENSOR_CHECK_INTERVAL" 60 ;;
  thi <- environ_int environ "TEMPERATURE_HUMIDITY_INTERVAL" 1800 ;;
  smi <- environ_int environ "SOIL_MOISTURE_INTERVAL" 300 ;;
  smt <- environ_int environ "SOIL_MOISTURE_THRESHOLD" 159 ;;
  wih <- environ_int environ "WATERING_INTERVAL_HOURS" 12 ;;
  wds <- environ_int environ "WATERING_DURATION_SECONDS" 5 ;;
  wam <- environ_int environ "WATER_AMOUNT_ML" 100 ;;
  crw <- environ_int environ "CAMERA_RESOLUTION_WIDTH" 1280 ;;
  crh <- environ_int environ "CAMERA_RESOLUTION_HEIGHT" 720 ;;
  inr (mkConfig "すくすくミントちゃん" "1.0.0" secret_key false data_base_path
         sci thi smi smt wih wds wam crw crh
         (environ_get environ "AUTO_CAPTURE_TIME" "06:00")
         (environ !! "LINE_NOTIFY_TOKEN")
         (environ_get environ "LINE_NOTIFY_API_URL" "https://notify-api.line.me/api/notify")
         (environ_get environ "LOG_LEVEL" "INFO")
         (environ_get environ "LOG_FILE_PATH" "/mnt/usb-storage/logs")).

End Config.

(* ===================================================================== *)
(** * [src/utils/logger.py] and [main.py] *)
(* ===================================================================== *)

Module Main.

Definition upper_char (c : ascii) : ascii :=
  let n := nat_of_ascii c in
  if ((97 <=? n) && (n <=? 122))%nat then ascii_of_nat (n - 32) else c.

Definition lower_char (c : ascii) : ascii :=
  let n := nat_of_ascii c in
  if ((65 <=? n) && (n <=? 90))%nat then ascii_of_nat (n + 32) else c.

Fixpoint map_string (f : ascii -> ascii) (s : string) : string :=
  match s with
  | EmptyString => EmptyString
  | String c s' => String (f c) (map_string f s')
  end.

Definition upper : string -> string := map_string upper_char.
Definition lower : string -> string := map_string lower_char.

(** The names [getattr(logging, name)] resolves to a level. *)
Definition LEVELS : list string :=
  ["CRITICAL"; "FATAL"; "ERROR"; "WARNING"; "WARN"; "INFO"; "DEBUG"; "NOTSET"].

(** The host the process starts on. *)
Record Host : Type := mkHost {
  environ : gmap string string;
  logs_writable : bool;     (* the log directory and file can be made *)
  port_free : bool          (* port 5000 can be bound *)
}.

(** [setup_logging]: [None] when it returns. *)
Definition setup_logging (h : Host) : option exn :=
  if negb (logs_writable h) then Some (OSError "logs")
  else
    let log_level := upper (Config.environ_get (environ h) "LOG_LEVEL" "INFO") in
    if existsb (String.eqb log_level) LEVELS then None
    else Some (AttributeError log_level).

(** The application [create_app] makes. *)
Record App : Type := mkApp { app_SECRET_KEY : string; app_DEBUG : bool }.

Definition create_app (h : Host) : App :=
  mkApp (Config.environ_get (environ h) "SECRET_KEY" "dev-secret-key")
        (String.eqb (lower (Config.environ_get (environ h) "FLASK_DEBUG" "True")) "true").

Inductive Outcome : Type :=
  | Serving (app : App)          (* [app.run] is serving requests *)
  | Uncaught (e : exn)           (* an exception left [main] *)
  | Exit (code : Z).             (* [sys.exit(code)] *)

Definition main (h : Host) : Outcome :=
  match setup_logging h with
  | Some e => Uncaught e
  | None =>
      let app := create_app h in
      if port_free h then Serving app else Exit 1
  end.

End Main.

(* ===================================================================== *)
(** * What the specification speaks of and the source does not define *)
(* ===================================================================== *)

Module Spec.

(** ** Parsing a capture file name *)

Definition width_of (c : ascii) : nat :=
  if Ascii.eqb c "Y"%char then 4%nat
  else if Ascii.eqb c "f"%char then 6%nat
  else 2%nat.

(** Reads exactly [width] decimal digits. *)
Fixpoint take_digits (width : nat) (s : string) (acc : Z) : option (Z * string) :=
  match width with
  | O => Some (acc, s)
  | S k =>
      match s with
      | String c s' =>
          if Config.is_digit c
          then take_digits k s' (acc * 10 + Config.digit_value c)
          else None
      | EmptyString => None
      end
  end.

Definition set_field (c : ascii) (v : Z) (t : datetime) : option datetime :=
  if Ascii.eqb c "Y"%char then
    Some (mkDatetime v (month t) (day t) (hour t) (minute t) (second t) (microsecond t))
  else if Ascii.eqb c "m"%char then
    Some (mkDatetime (year t) v (day t) (hour t) (minute t) (second t) (microsecond t))
  else if Ascii.eqb c "d"%char then
    Some (mkDatetime (year t) (month t) v (hour t) (minute t) (second t) (microsecond t))
  else if Ascii.eqb c "H"%char then
    Some (mkDatetime (year t) (month t) (day t) v (minute t) (second t) (microsecond t))
  else if Ascii.eqb c "M"%char then
    Some (mkDatetime (year t) (month t) (day t) (hour t) v (second t) (microsecond t))
  else if Ascii.eqb c "S"%char then
    Some (mkDatetime (year t) (month t) (day t) (hour t) (minute t) v (microsecond t))
  else if Ascii.eqb c "f"%char then
    Some (mkDatetime (year t) (month t) (day t) (hour t) (minute t) (second t) v)
  else None.

(** Reads [s] against [fmt], filling the fields of [t]. *)
Fixpoint scan (fmt s : string) (t : datetime) : option datetime :=
  match fmt with
  | EmptyString => if String.eqb s "" then Some t else None
  | String c fmt' =>
      if Ascii.eqb c "%"%char then
        match fmt' with
        | EmptyString => None
        | String d fmt'' =>
            match take_digits (width_of d) s 0 with
            | Some (v, s') =>
                match set_field d v t with
                | Some t' => scan fmt'' s' t'
                | None => None
                end
            | None => None
            end
        end
      else
        match s with
        | String e s' => if Ascii.eqb c e then scan fmt' s' t else None
        | EmptyString => None
        end
  end.

(** Modelled from the spec: the parser of capture file names
    ("parsed from the file name", "YYYYMMDD_HHMMSS.<ext>").  The source
    only generates names; this reads a name back against the format it
    was generated with and answers a timestamp when the fields make a
    date and a time. *)
Definition parse_file_name (name : string) : option datetime :=
  match scan FILE_NAME_FORMAT name (mkDatetime 1900 1 1 0 0 0 0) with
  | Some t => if validb t then Some t else None
  | None => None
  end.


(** ** The watering decision *)






End Spec.

(* ===================================================================== *)
(** * The properties of the specification, as it states them *)
(* ===================================================================== *)

Section Stated.
Variable fromtimestamp : Z -> datetime.

(** The sweep time the next call of [delete_old_images] reads. *)
Definition sweep_cutoff (w : World) : datetime :=
  sub_days (fst (datetime_now fromtimestamp w)) RETENTION_DAYS.



(** The path the next capture writes to. *)
Definition next_capture_path (w : World) : string :=
  Path.join SAVE_DIR (file_name_of (fst (datetime_now fromtimestamp w))).



End Stated.

(** "Returns the current ControllerState snapshot plus process uptime and
    version string": members for the last reading, the last watering, the
    last capture and the uptime, besides the version. *)
Definition carries_state_and_uptime (r : Response) : Prop :=
  exists k_reading k_watering k_capture k_uptime : string,
    NoDup [k_reading; k_watering; k_capture; k_uptime; "version"] /\
    Forall (fun k => is_Some (member k r))
           [k_reading; k_watering; k_capture; k_uptime; "version"].

(** "The process must not start with an invalid or missing critical
    configuration value". *)
Definition bad_setting (environ : gmap string string) (key : string) : Prop :=
  environ !! key = None \/
  exists s, environ !! key = Some s /\ Config.int_of_string s = None.

Definition refuses_bad_configuration (h : Main.Host) : Prop :=
  (exists key default, In (key, default) Config.INT_SETTINGS /\
                       bad_setting (Main.environ h) key) ->
  forall app, Main.main h <> Main.Serving app.

(* ===================================================================== *)
(** * Concrete worlds *)
(* ===================================================================== *)

(** A clock that starts at [t0] and advances by [step] at every reading. *)
Definition steady_clock (t0 step : Z) : nat -> Z :=
  fun n => t0 + Z.of_nat n * step.

Definition idle_camera (frames : list Frame) : Device :=
  mkDevice true false 640 480 frames.

Definition planter (fs : gmap string File) (frames : list Frame) (clk : nat -> Z) : World :=
  mkWorld {[SAVE_DIR]} fs (idle_camera frames) clk 0 [].

(** 2025-01-01T00:00:00 JST. *)
Definition T_2025_01_01 : Z := 1735657200 * 1000000.
(** 2025-06-12T10:00:00 JST, ninety days before [T_2025_09_10_100000]. *)
Definition T_2025_06_12_100000 : Z := 1749690000 * 1000000.

(** A capture of the day before the sweep whose inode is older than the
    retention window, next to an old capture that was copied yesterday. *)
Definition restored_directory : gmap string File :=
  {[ "plant_images/20250909_100000.jpg" := mkFile (Jpeg 1 95) T_2025_01_01;
     "plant_images/20250101_000000.jpg" := mkFile (Jpeg 2 95) (T_2025_09_10_100000 - 86400 * 1000000);
     "plant_images/notes.txt" := mkFile (Bytes "water on monday") T_2025_01_01;
     "archive/20240101_000000.jpg" := mkFile (Jpeg 3 95) T_2025_01_01 ]}.

Definition restored_world : World :=
  planter restored_directory [] (steady_clock T_2025_09_10_100000 1000000).

(** A file created exactly ninety days before the first sweep. *)
Definition boundary_world : World :=
  planter {[ "plant_images/20250612_100000.jpg" := mkFile (Jpeg 1 95) T_2025_06_12_100000 ]}
          [] (steady_clock T_2025_09_10_100000 1000000).

(** Three frames are ready and the clock advances by 100 ms per reading. *)
Definition burst_world : World :=
  planter ∅ [101; 102; 103] (steady_clock T_2025_09_10_100000 100000).

(* ===================================================================== *)
(** * Notions the theorems are stated with *)
(* ===================================================================== *)

(** What a call leaves untouched besides the files. *)
Definition same_surroundings (w w' : World) : Prop :=
  dirs w' = dirs w /\ device w' = device w /\ clock w' = clock w /\
  stdout w' = stdout w.

(** The test of the loop body on the file at [path]. *)
Definition expired (fromtimestamp : Z -> datetime) (cutoff_date : datetime)
    (fs : gmap string File) (path : string) : bool :=
  match fs !! path with
  | Some f => Datetime.ltb (fromtimestamp (ctime f)) cutoff_date
  | None => false
  end.


(** The world a successful capture hands to the sweep: frame [f] is
    the first that was pending. *)
Definition captured (fromtimestamp : Z -> datetime) (w : World)
    (f : Frame) (rest : list Frame) : World :=
  mkWorld (dirs w)
          (<[next_capture_path fromtimestamp w :=
               mkFile (Jpeg f JPEG_QUALITY) (clock w (S (ticks w)))]> (files w))
          (mkDevice true false IMAGE_WIDTH IMAGE_HEIGHT rest)
          (clock w) (S (S (ticks w))) (stdout w).

(** A pattern without [*] and [?]. *)
Fixpoint literal (pat : string) : bool :=
  match pat with
  | EmptyString => true
  | String c pat' =>
      negb (Ascii.eqb c "*"%char) && negb (Ascii.eqb c "?"%char) && literal pat'
  end.

(** A camera that opens and delivers nothing. *)
Definition dark_world : World :=
  planter ∅ [] (steady_clock T_2025_09_10_100000 100000).

(** A server whose clock shows 2025-09-10T10:00:00 JST. *)
Definition morning_server : Server := mkServer burst_world [].

(** A host where no setting is given. *)
Definition bare_host : Main.Host := Main.mkHost ∅ true true.

(** A host where a setting is not a number. *)
Definition misconfigured_host : Main.Host :=
  Main.mkHost {[ "SOIL_MOISTURE_INTERVAL" := "abc" ]} true true.

(* ===================================================================== *)
(** * The rest of the code *)
(* ===================================================================== *)



(** A world without the capture directory. *)
Definition fresh_world : World :=
  mkWorld ∅ ∅ (idle_camera [7; 8]) (steady_clock T_2025_09_10_100000 100000) 0 [].

(** ** [config.py]: attribute access, the subclasses and the dictionary *)

(** [getattr(cls, key)] for the integer settings. *)
Definition config_int (key : string) (c : Config.Config) : option Z :=
  if String.eqb key "SENSOR_CHECK_INTERVAL" then Some (Config.SENSOR_CHECK_INTERVAL c)
  else if String.eqb key "TEMPERATURE_HUMIDITY_INTERVAL" then Some (Config.TEMPERATURE_HUMIDITY_INTERVAL c)
  else if String.eqb key "SOIL_MOISTURE_INTERVAL" then Some (Config.SOIL_MOISTURE_INTERVAL c)
  else if String.eqb key "SOIL_MOISTURE_THRESHOLD" then Some (Config.SOIL_MOISTURE_THRESHOLD c)
  else if String.eqb key "WATERING_INTERVAL_HOURS" then Some (Config.WATERING_INTERVAL_HOURS c)
  else if String.eqb key "WATERING_DURATION_SECONDS" then Some (Config.WATERING_DURATION_SECONDS c)
  else if String.eqb key "WATER_AMOUNT_ML" then Some (Config.WATER_AMOUNT_ML c)
  else if String.eqb key "CAMERA_RESOLUTION_WIDTH" then Some (Config.CAMERA_RESOLUTION_WIDTH c)
  else if String.eqb key "CAMERA_RESOLUTION_HEIGHT" then Some (Config.CAMERA_RESOLUTION_HEIGHT c)
  else None.

(** The integer settings of a class, in the order of the class body. *)
Definition config_ints (c : Config.Config) : list Z :=
  [Config.SENSOR_CHECK_INTERVAL c; Config.TEMPERATURE_HUMIDITY_INTERVAL c;
   Config.SOIL_MOISTURE_INTERVAL c; Config.SOIL_MOISTURE_THRESHOLD c;
   Config.WATERING_INTERVAL_HOURS c; Config.WATERING_DURATION_SECONDS c;
   Config.WATER_AMOUNT_ML c; Config.CAMERA_RESOLUTION_WIDTH c;
   Config.CAMERA_RESOLUTION_HEIGHT c].

(** What [int(os.environ.get(key, default))] gives when it gives a value. *)
Definition setting_value (environ : gmap string string) (key : string) (default : Z)
  : option Z :=
  match environ !! key with
  | None => Some default
  | Some s => Config.int_of_string s
  end.

(** The setting is there and [int] rejects it. *)
Definition invalid_setting (environ : gmap string string) (key : string) : Prop :=
  exists s, environ !! key = Some s /\ Config.int_of_string s = None.

(** A class of the module: the attributes it shares with [Config], and
    [TESTING] where the class defines it. *)
Record ConfigClass : Type := mkConfigClass {
  attributes : Config.Config;
  TESTING : option bool
}.

(** A subclass body that sets [DEBUG] and [DATA_BASE_PATH]. *)
Definition overriding (debug : bool) (data_base_path : string) (c : Config.Config)
  : Config.Config :=
  Config.mkConfig (Config.PROJECT_NAME c) (Config.VERSION c) (Config.SECRET_KEY c)
    debug data_base_path
    (Config.SENSOR_CHECK_INTERVAL c) (Config.TEMPERATURE_HUMIDITY_INTERVAL c)
    (Config.SOIL_MOISTURE_INTERVAL c) (Config.SOIL_MOISTURE_THRESHOLD c)
    (Config.WATERING_INTERVAL_HOURS c) (Config.WATERING_DURATION_SECONDS c)
    (Config.WATER_AMOUNT_ML c) (Config.CAMERA_RESOLUTION_WIDTH c)
    (Config.CAMERA_RESOLUTION_HEIGHT c) (Config.AUTO_CAPTURE_TIME c)
    (Config.LINE_NOTIFY_TOKEN c) (Config.LINE_NOTIFY_API_URL c)
    (Config.LOG_LEVEL c) (Config.LOG_FILE_PATH c).

Definition DevelopmentConfig (c : Config.Config) : ConfigClass :=
  mkConfigClass (overriding true "./data" c) None.

Definition ProductionConfig (c : Config.Config) : ConfigClass :=
  mkConfigClass (overriding false "/mnt/usb-storage" c) None.

Definition TestingConfig (c : Config.Config) : ConfigClass :=
  mkConfigClass (overriding true "./test_data" c) (Some true).

(** Importing [config.py]: the class bodies in order, then the dictionary
    [config]. *)
Definition import_config (environ : gmap string string)
  : exn + (Config.Config * gmap string ConfigClass) :=
  match Config.load environ with
  | inl e => inl e
  | inr c =>
      inr (c, {[ "development" := DevelopmentConfig c;
                 "production" := ProductionConfig c;
                 "testing" := TestingConfig c;
                 "default" := DevelopmentConfig c ]})
  end.

(** The dictionary [config] of an import that succeeds. *)
Definition config_dictionary (environ : gmap string string)
  : option (gmap string ConfigClass) :=
  match import_config environ with
  | inr (_, d) => Some d
  | inl _ => None
  end.

(** ** The [logging] configuration of [logger.py] and [app.py] *)

Module Logging.

Definition NOTSET : Z := 0.
Definition DEBUG : Z := 10.
Definition INFO : Z := 20.
Definition WARNING : Z := 30.
Definition ERROR : Z := 40.
Definition CRITICAL : Z := 50.

(** [getattr(logging, name)] for the names of [Main.LEVELS]. *)
Definition level_of_name (name : string) : option Z :=
  if String.eqb name "CRITICAL" then Some CRITICAL
  else if String.eqb name "FATAL" then Some CRITICAL
  else if String.eqb name "ERROR" then Some ERROR
  else if String.eqb name "WARNING" then Some WARNING
  else if String.eqb name "WARN" then Some WARNING
  else if String.eqb name "INFO" then Some INFO
  else if String.eqb name "DEBUG" then Some DEBUG
  else if String.eqb name "NOTSET" then Some NOTSET
  else None.

Inductive Target : Type :=
  | FileHandler (path : string)
  | StreamHandler.                 (* the console *)

Record Handler : Type := mkHandler {
  target : Target;
  handler_level : Z;
  format : string;
  datefmt : string
}.

(** The state of the [logging] module: the root logger and the levels set
    on named loggers.  Handlers are put on the root logger only. *)
Record State : Type := mkState {
  root_level : Z;
  root_handlers : list Handler;
  logger_levels : gmap string Z
}.

(** The module as the interpreter starts it. *)
Definition initial : State := mkState WARNING [] ∅.

Definition FORMAT : string := "%(asctime)s - %(name)s - %(levelname)s - %(message)s".
Definition DATEFMT : string := "%Y-%m-%d %H:%M:%S".

(** The log file of the day, under the project's [logs] directory. *)
Definition log_file (now : datetime) : string :=
  Path.join "logs" ("smart-planter-" ++ strftime "%Y%m%d" now ++ ".log").

Definition file_handler (now : datetime) : Handler :=
  mkHandler (FileHandler (log_file now)) DEBUG FORMAT DATEFMT.

Definition console_handler : Handler :=
  mkHandler StreamHandler INFO FORMAT DATEFMT.

(** [setup_logging]: the failures are those of [Main.setup_logging], and
    they happen before anything is changed; otherwise the root logger
    gets its level, loses the handlers it had and gets the two new ones,
    and the logger [smart_planter] is put at INFO. *)
Definition setup_logging (h : Main.Host) (now : datetime) (st : State) : exn + State :=
  match Main.setup_logging h with
  | Some e => inl e
  | None =>
      let log_level := Main.upper (Config.environ_get (Main.environ h) "LOG_LEVEL" "INFO") in
      match level_of_name log_level with
      | None => inl (AttributeError log_level)
      | Some level =>
          inr (mkState level [file_handler now; console_handler]
                       (<["smart_planter" := INFO]> (logger_levels st)))
      end
  end.

(** [get_logger(name)] is the logger of this name. *)
Definition get_logger (name : string) : string := "smart_planter." ++ name.

(** [logging.basicConfig(level=logging.INFO)] in [create_app]: it does
    nothing when the root logger has a handler. *)
Definition basicConfig_INFO (st : State) : State :=
  match root_handlers st with
  | [] => mkState INFO [mkHandler StreamHandler NOTSET "%(levelname)s:%(name)s:%(message)s" ""]
                  (logger_levels st)
  | _ :: _ => st
  end.

(** [name.rfind(".", 0, limit)]: the last dot before position [limit]. *)
Fixpoint rfind_dot (name : string) (limit : nat) : option nat :=
  match limit with
  | O => None
  | S k =>
      match String.get k name with
      | Some c => if Ascii.eqb c "."%char then Some k else rfind_dot name k
      | None => rfind_dot name k
      end
  end.

(** The names [Manager._fixupParents] visits for [name], nearest first:
    the prefix before a dot at position [i > 0], then on from the last
    dot before [i - 1].  For a name whose components are not empty these
    are its dotted prefixes, and the levels set on them are the ones
    [getEffectiveLevel] meets on its way to the root logger. *)
Fixpoint visited (fuel : nat) (name : string) (i : option nat) : list string :=
  match fuel, i with
  | S fuel', Some (S j) => String.substring 0 (S j) name :: visited fuel' name (rfind_dot name j)
  | _, _ => []
  end.

Definition ancestors (name : string) : list string :=
  visited (String.length name) name (rfind_dot name (String.length name)).

(** [Logger.getEffectiveLevel]: the first level that is set, from the
    logger up through its ancestors, the root logger last. *)
Fixpoint first_level (levels : gmap string Z) (names : list string) (root : Z) : Z :=
  match names with
  | [] => root
  | n :: names' =>
      match levels !! n with
      | Some l => if l =? 0 then first_level levels names' root else l
      | None => first_level levels names' root
      end
  end.

Definition effective_level (st : State) (name : string) : Z :=
  first_level (logger_levels st) (name :: ancestors name) (root_level st).

(** [Logger.isEnabledFor]; nothing is disabled module-wide. *)
Definition enabled (st : State) (name : string) (level : Z) : bool :=
  (0 <? level) && (effective_level st name <=? level).

(** [logging.lastResort], used when no handler is found. *)
Definition lastResort : Handler := mkHandler StreamHandler WARNING "%(message)s" "".

(** The handlers that handle a record of [level] logged on [name]
    ([Logger.callHandlers]). *)
Definition delivered (st : State) (name : string) (level : Z) : list Handler :=
  if enabled st name level
  then List.filter (fun hd => handler_level hd <=? level)
                   (match root_handlers st with
                    | [] => [lastResort]
                    | hds => hds
                    end)
  else [].

End Logging.

(** Only characters of ASCII. *)
Fixpoint ascii_only (s : string) : bool :=
  match s with
  | EmptyString => true
  | String c s' => (nat_of_ascii c <? 128)%nat && ascii_only s'
  end.

(** A string without a dot. *)
Fixpoint dotless (s : string) : bool :=
  match s with
  | EmptyString => true
  | String c s' => negb (Ascii.eqb c "."%char) && dotless s'
  end.

(* ===================================================================== *)
(** * The model on concrete inputs *)
(* ===================================================================== *)

Example ord_2025_09_10 : ymd2ord 2025 9 10 = 739504 /\ ord2ymd 739504 = (2025, 9, 10).
Proof. split; reflexivity. Qed.

Example fromtimestamp_example :
  JST_time T_2025_09_10_100000 = mkDatetime 2025 9 10 10 0 0 0.
Proof. reflexivity. Qed.

Example file_name_example :
  file_name_of (mkDatetime 2025 9 10 10 0 0 0) = "20250910_100000.jpg".
Proof. reflexivity. Qed.

(** The two directions of the calendar agree, day by day, from 1970 on for
    some 68 years. *)
Example calendar_sample :
  snd (Z.iter 25000
         (fun st : Z * bool =>
            let '(y, m, d) := ord2ymd (fst st) in
            (fst st + 1,
             snd st && (ymd2ord y m d =? fst st) && validb (mkDatetime y m d 0 0 0 0)))
         (EPOCH_ORDINAL, true)) = true.
Proof. vm_compute. reflexivity. Qed.

Example cutoff_example :
  sub_days (mkDatetime 2025 9 10 10 0 0 0) RETENTION_DAYS = mkDatetime 2025 6 12 10 0 0 0.
Proof. reflexivity. Qed.

(* ===================================================================== *)
(** * The retention sweep *)
(* ===================================================================== *)

Section Sweep.
Variable fromtimestamp : Z -> datetime.

Lemma datetime_now_files (w : World) :
  files (snd (datetime_now fromtimestamp w)) = files w.
Proof. reflexivity. Qed.

Lemma glob_images_elem (w : World) (p : string) :
  p ∈ glob_images w <->
  Path.glob_match SAVE_DIR "*.jpg" p = true /\ is_Some (files w !! p).
Proof.
  unfold glob_images. rewrite list_elem_of_In, filter_In, <- list_elem_of_In.
  rewrite list_elem_of_fmap. split.
  - intros [[[q f] [-> Hin]] Hm]. split; [exact Hm|].
    apply elem_of_map_to_list in Hin. simpl. eauto.
  - intros [Hm [f Hf]]. split; [|exact Hm].
    exists (p, f). split; [reflexivity|]. by apply elem_of_map_to_list.
Qed.

Lemma glob_images_NoDup (w : World) : NoDup (glob_images w).
Proof.
  unfold glob_images. apply NoDup_ListNoDup, List.NoDup_filter, NoDup_ListNoDup.
  apply NoDup_fst_map_to_list.
Qed.

(** The loop over a list of distinct, existing paths: it runs to its
    end, removes the expired ones among them and nothing else. *)
Lemma sweep_loop_spec (cutoff_date : datetime) (l : list string) :
  NoDup l ->
  forall w : World,
    (forall p, p ∈ l -> is_Some (files w !! p)) ->
    exists w',
      fold_left (sweep_step fromtimestamp cutoff_date) l (w, None) = (w', None) /\
      same_surroundings w w' /\ ticks w' = ticks w /\
      forall q, files w' !! q =
                if bool_decide (q ∈ l) && expired fromtimestamp cutoff_date (files w) q
                then None else files w !! q.
Proof.
  induction 1 as [|p l Hp Hnd IH]; intros w Hex.
  - exists w. by repeat split.
  - destruct (Hex p) as [f Hf]; [left|].
    cbn [fold_left]. unfold sweep_step at 2. rewrite Hf.
    destruct (Datetime.ltb (fromtimestamp (ctime f)) cutoff_date) eqn:Hold.
    + destruct (IH (set_files (delete p (files w)) w)) as (w' & Hrun & Hs & Ht & Hq).
      { intros p' Hp'. simpl. rewrite lookup_delete_ne; [|congruence].
        apply Hex. by right. }
      exists w'. split; [exact Hrun|]. split; [exact Hs|]. split; [exact Ht|].
      intros q. rewrite Hq. simpl. unfold expired.
      destruct (decide (q = p)) as [->|Hne].
      * rewrite lookup_delete_eq, Hf, Hold.
        rewrite (bool_decide_eq_true_2 (p ∈ p :: l)); [|left].
        by rewrite andb_false_r.
      * rewrite lookup_delete_ne; [|congruence].
        replace (bool_decide (q ∈ p :: l)) with (bool_decide (q ∈ l)); [done|].
        apply bool_decide_ext. rewrite elem_of_cons. intuition congruence.
    + destruct (IH w) as (w' & Hrun & Hs & Ht & Hq).
      { intros p' Hp'. apply Hex. by right. }
      exists w'. split; [exact Hrun|]. split; [exact Hs|]. split; [exact Ht|].
      intros q. rewrite Hq. unfold expired.
      destruct (decide (q = p)) as [->|Hne].
      * rewrite (bool_decide_eq_false_2 (p ∈ l)); [|exact Hp].
        rewrite Hf, Hold. simpl. by rewrite andb_false_r.
      * replace (bool_decide (q ∈ p :: l)) with (bool_decide (q ∈ l)); [done|].
        apply bool_decide_ext. rewrite elem_of_cons. intuition congruence.
Qed.

(** The files after a sweep, path by path. *)
Lemma delete_old_images_spec (w : World) :
  exists w',
    delete_old_images fromtimestamp w = (w', None) /\
    same_surroundings w w' /\ ticks w' = S (ticks w) /\
    forall q, files w' !! q =
              if Path.glob_match SAVE_DIR "*.jpg" q &&
                 expired fromtimestamp (sweep_cutoff fromtimestamp w) (files w) q
              then None else files w !! q.
Proof.
  unfold delete_old_images, sweep_cutoff.
  destruct (datetime_now fromtimestamp w) as [today w1] eqn:Hnow.
  assert (Hw1 : w1 = snd (datetime_now fromtimestamp w)) by (by rewrite Hnow).
  destruct (sweep_loop_spec (sub_days today RETENTION_DAYS) (glob_images w1)
              (glob_images_NoDup w1) w1) as (w' & Hrun & Hs & Ht & Hq).
  { intros p Hp. by apply glob_images_elem in Hp as [_ ?]. }
  exists w'. split; [exact Hrun|].
  assert (Hf : files w1 = files w) by (subst w1; reflexivity).
  split; [|split].
  - subst w1. destruct Hs as (? & ? & ? & ?). repeat split; simpl in *; congruence.
  - rewrite Ht. subst w1. reflexivity.
  - intros q. rewrite Hq, Hf. simpl.
    destruct (Path.glob_match SAVE_DIR "*.jpg" q) eqn:Hm.
    + destruct (files w !! q) as [f|] eqn:Hfq.
      * rewrite (bool_decide_eq_true_2 (q ∈ glob_images w1)); [done|].
        apply glob_images_elem. rewrite Hf. eauto.
      * unfold expired. rewrite Hfq. by rewrite andb_false_r.
    + rewrite (bool_decide_eq_false_2 (q ∈ glob_images w1)); [done|].
      rewrite glob_images_elem. intros [? _]. congruence.
Qed.

(** The sweep always returns. *)
Lemma delete_old_images_returns (w : World) :
  snd (delete_old_images fromtimestamp w) = None.
Proof. destruct (delete_old_images_spec w) as (w' & -> & _). reflexivity. Qed.

Lemma delete_old_images_lookup (w : World) (q : string) :
  files (fst (delete_old_images fromtimestamp w)) !! q =
  if Path.glob_match SAVE_DIR "*.jpg" q &&
     expired fromtimestamp (sweep_cutoff fromtimestamp w) (files w) q
  then None else files w !! q.
Proof. destruct (delete_old_images_spec w) as (w' & -> & _ & _ & Hq). apply Hq. Qed.

Lemma delete_old_images_surroundings (w : World) :
  same_surroundings w (fst (delete_old_images fromtimestamp w)) /\
  ticks (fst (delete_old_images fromtimestamp w)) = S (ticks w).
Proof. destruct (delete_old_images_spec w) as (w' & -> & Hs & Ht & _). by split. Qed.

End Sweep.

(* ===================================================================== *)
(** * What the pattern of the sweep matches *)
(* ===================================================================== *)

Section Pattern.

Lemma strip_prefix_Some (pre s r : string) :
  Path.strip_prefix pre s = Some r <-> s = pre ++ r.
Proof.
  revert s. induction pre as [|c pre IH]; intros s; simpl.
  - split; [intros [= ->]; reflexivity | intros ->; reflexivity].
  - destruct s as [|d s]; [split; discriminate|].
    destruct (Ascii.eqb_spec c d) as [->|Hne].
    + rewrite IH. split; [intros ->; reflexivity | intros [= ->]; reflexivity].
    + split; [discriminate | intros [= -> _]; congruence].
Qed.

Lemma fnmatch_star (pat n : string) :
  Path.fnmatch (String "*" pat) n =
  Path.fnmatch pat n ||
  match n with
  | EmptyString => false
  | String _ n' => Path.fnmatch (String "*" pat) n'
  end.
Proof. destruct n; reflexivity. Qed.

Lemma fnmatch_literal (pat n : string) :
  literal pat = true -> (Path.fnmatch pat n = true <-> n = pat).
Proof.
  revert n. induction pat as [|c pat IH]; intros n Hl.
  - simpl. destruct n; simpl; split; congruence.
  - simpl in Hl. apply andb_prop in Hl as [Hc Hl]. apply andb_prop in Hc as [Hs Hq].
    apply negb_true_iff in Hs, Hq. simpl. rewrite Hs, Hq. simpl.
    destruct n as [|d n]; [split; discriminate|].
    rewrite andb_true_iff, (IH n Hl).
    destruct (Ascii.eqb_spec c d) as [->|Hne]; split.
    + intros [_ ->]. reflexivity.
    + intros [= ->]. done.
    + intros [? _]. discriminate.
    + intros [= -> _]. congruence.
Qed.

Lemma fnmatch_star_literal (pat n : string) :
  literal pat = true ->
  (Path.fnmatch (String "*" pat) n = true <-> exists stem, n = stem ++ pat).
Proof.
  intros Hl. induction n as [|d n IH]; rewrite fnmatch_star, orb_true_iff.
  - rewrite (fnmatch_literal pat "" Hl). split.
    + intros [<-|?]; [by exists "" | discriminate].
    + intros [stem Hs]. left. destruct stem; simpl in Hs; [done|discriminate].
  - rewrite (fnmatch_literal pat _ Hl), IH. split.
    + intros [->|[stem ->]]; [by exists "" | by exists (String d stem)].
    + intros [stem Hs]. destruct stem as [|e stem]; simpl in Hs.
      * by left.
      * right. exists stem. by inversion Hs.
Qed.

Lemma contains_sep_app (a b : string) :
  Path.contains_sep (a ++ b) = Path.contains_sep a || Path.contains_sep b.
Proof.
  induction a as [|c a IH]; simpl; [reflexivity|].
  by rewrite IH, orb_assoc.
Qed.

(** The paths the sweep looks at are the [<stem>.jpg] directly inside
    the capture directory, hidden names left out. *)
Lemma glob_match_jpg (path : string) :
  Path.glob_match SAVE_DIR "*.jpg" path = true <->
  exists stem,
    path = "plant_images/" ++ stem ++ ".jpg" /\
    Path.contains_sep stem = false /\
    Path.hidden (stem ++ ".jpg") = false.
Proof.
  unfold Path.glob_match, Path.entry_name.
  change (Path.join SAVE_DIR "") with "plant_images/".
  change (Path.hidden "*.jpg") with false. split.
  - destruct (Path.strip_prefix "plant_images/" path) as [n|] eqn:Hn; [|discriminate].
    apply strip_prefix_Some in Hn as ->.
    destruct (String.eqb n "" || Path.contains_sep n) eqn:Hs; [discriminate|].
    apply orb_false_iff in Hs as [_ Hs].
    rewrite orb_false_r, andb_true_iff, negb_true_iff.
    intros [Hh Hm]. apply (fnmatch_star_literal ".jpg") in Hm as [stem ->]; [|reflexivity].
    exists stem. split; [reflexivity|]. split; [|exact Hh].
    rewrite contains_sep_app in Hs. by apply orb_false_iff in Hs as [? _].
  - intros (stem & -> & Hs & Hh).
    rewrite (proj2 (strip_prefix_Some "plant_images/" _ (stem ++ ".jpg")) eq_refl).
    rewrite contains_sep_app, Hs. simpl.
    replace (String.eqb (stem ++ ".jpg") "") with false
      by (destruct stem; reflexivity).
    simpl. rewrite Hh. simpl.
    apply (fnmatch_star_literal ".jpg"); [reflexivity | by exists stem].
Qed.

End Pattern.

(* ===================================================================== *)
(** * Claims on the retention sweep *)
(* ===================================================================== *)





(** C10: the sweep leaves every path that is not a [*.jpg] directly
    inside SAVE_DIR as it is (files with another extension, files of other
    directories, files of subdirectories), and the directories too. *)
Theorem sweep_leaves_other_paths (fromtimestamp : Z -> datetime) (w : World) (path : string) :
  Path.glob_match SAVE_DIR "*.jpg" path = false ->
  let w' := fst (delete_old_images fromtimestamp w) in
  files w' !! path = files w !! path /\ dirs w' = dirs w.
Proof.
  intros Hm w'. subst w'. rewrite delete_old_images_lookup, Hm. split; [reflexivity|].
  by destruct (delete_old_images_surroundings fromtimestamp w) as [(? & _) _].
Qed.

(** A file the sweep keeps is kept with its content and ctime. *)
Lemma sweep_keeps_or_removes (fromtimestamp : Z -> datetime) (w : World) (path : string) :
  let w' := fst (delete_old_images fromtimestamp w) in
  files w' !! path = files w !! path \/
  (files w' !! path = None /\ Path.glob_match SAVE_DIR "*.jpg" path = true).
Proof.
  simpl. rewrite delete_old_images_lookup.
  destruct (Path.glob_match SAVE_DIR "*.jpg" path); simpl; [|by left].
  destruct (expired _ _ _ _); [by right | by left].
Qed.



Lemma sweep_leaves_other_paths_witness :
  Path.glob_match SAVE_DIR "*.jpg" "plant_images/notes.txt" = false /\
  files (fst (delete_old_images JST_time restored_world)) !! "plant_images/notes.txt" =
    files restored_world !! "plant_images/notes.txt" /\
  dirs (fst (delete_old_images JST_time restored_world)) = dirs restored_world.
Proof.
  split; [reflexivity|].
  apply (sweep_leaves_other_paths JST_time restored_world "plant_images/notes.txt"). reflexivity.
Defined.

(* ===================================================================== *)
(** * File names: generation and parsing *)
(* ===================================================================== *)

Section Names.

Lemma digit_is_digit (d : Z) :
  0 <= d <= 9 -> Config.is_digit (digit d) = true /\ Config.digit_value (digit d) = d.
Proof.
  intros Hd.
  assert (Hc : d = 0 \/ d = 1 \/ d = 2 \/ d = 3 \/ d = 4 \/
               d = 5 \/ d = 6 \/ d = 7 \/ d = 8 \/ d = 9) by lia.
  repeat (destruct Hc as [->|Hc]; [split; reflexivity|]). subst d. split; reflexivity.
Qed.

(** Reading one digit more is reading the digits before it first. *)
Lemma take_digits_S (k : nat) (s : string) (acc : Z) :
  Spec.take_digits (S k) s acc =
  match Spec.take_digits k s acc with
  | Some (a, String c r) =>
      if Config.is_digit c then Some (a * 10 + Config.digit_value c, r) else None
  | _ => None
  end.
Proof.
  revert s acc. induction k as [|k IH]; intros s acc.
  - destruct s as [|c r]; [reflexivity|]. simpl. by destruct (Config.is_digit c).
  - destruct s as [|c r]; [reflexivity|].
    change (Spec.take_digits (S (S k)) (String c r) acc)
      with (if Config.is_digit c
            then Spec.take_digits (S k) r (acc * 10 + Config.digit_value c) else None).
    change (Spec.take_digits (S k) (String c r) acc)
      with (if Config.is_digit c
            then Spec.take_digits k r (acc * 10 + Config.digit_value c) else None).
    destruct (Config.is_digit c); [apply IH | reflexivity].
Qed.

(** The digits [zpad] writes are read back as the number written. *)
Lemma take_digits_zpad (n : nat) (v : Z) (rest : string) (acc : Z) :
  0 <= v < 10 ^ Z.of_nat n ->
  Spec.take_digits n (zpad n v rest) acc = Some (acc * 10 ^ Z.of_nat n + v, rest).
Proof.
  revert v rest. induction n as [|n IH]; intros v rest Hv.
  - simpl in *. f_equal. f_equal. lia.
  - rewrite Nat2Z.inj_succ, Z.pow_succ_r in * by lia.
    rewrite take_digits_S.
    change (zpad (S n) v rest) with (zpad n (v / 10) (String (digit (v mod 10)) rest)).
    rewrite IH by (split; [apply Z.div_pos; lia | apply Z.div_lt_upper_bound; lia]).
    destruct (digit_is_digit (v mod 10)) as [-> ->];
      [pose proof (Z.mod_pos_bound v 10); lia|].
    f_equal. f_equal. pose proof (Z.div_mod v 10). lia.
Qed.

Lemma file_name_of_eq (t : datetime) :
  file_name_of t =
  zpad 4 (year t) (zpad 2 (month t) (zpad 2 (day t) (String "_"
    (zpad 2 (hour t) (zpad 2 (minute t) (zpad 2 (second t) ".jpg")))))).
Proof. reflexivity. Qed.

Lemma valid_validb (t : datetime) : valid t -> validb t = true.
Proof.
  unfold valid, validb. intros (? & ? & ? & ? & ? & ? & ?).
  repeat (apply andb_true_intro; split); apply Z.leb_le; lia.
Qed.

Lemma scan_file_name (t t0 : datetime) :
  valid t ->
  Spec.scan FILE_NAME_FORMAT (file_name_of t) t0 =
  Some (mkDatetime (year t) (month t) (day t) (hour t) (minute t) (second t)
                   (microsecond t0)).
Proof.
  intros (Hy & Hm & Hd & HH & HM & HS & _).
  assert (Hd' : day t <= 31).
  { unfold days_in_month in Hd.
    destruct (month t =? 2); [destruct (is_leap (year t)); lia|].
    destruct ((month t =? 4) || (month t =? 6) || (month t =? 9) || (month t =? 11)); lia. }
  rewrite file_name_of_eq. unfold FILE_NAME_FORMAT.
  cbn -[zpad Spec.take_digits Z.mul Z.add].
  rewrite (take_digits_zpad 4) by (simpl; lia).
  cbn -[zpad Spec.take_digits Z.mul Z.add].
  rewrite (take_digits_zpad 2) by (simpl; lia).
  cbn -[zpad Spec.take_digits Z.mul Z.add].
  rewrite (take_digits_zpad 2) by (simpl; lia).
  cbn -[zpad Spec.take_digits Z.mul Z.add].
  rewrite (take_digits_zpad 2) by (simpl; lia).
  cbn -[zpad Spec.take_digits Z.mul Z.add].
  rewrite (take_digits_zpad 2) by (simpl; lia).
  cbn -[zpad Spec.take_digits Z.mul Z.add].
  rewrite (take_digits_zpad 2) by (simpl; lia).
  cbn -[zpad Spec.take_digits Z.mul Z.add].
  reflexivity.
Qed.

(** A generated name parses to the instant it was generated from, to
    the second. *)
Lemma parse_file_name_of (t : datetime) :
  valid t -> Spec.parse_file_name (file_name_of t) = Some (to_the_second t).
Proof.
  intros Hv. unfold Spec.parse_file_name. rewrite (scan_file_name t _ Hv). simpl.
  change (mkDatetime (year t) (month t) (day t) (hour t) (minute t) (second t) 0)
    with (to_the_second t).
  rewrite valid_validb; [reflexivity|].
  destruct Hv as (? & ? & ? & ? & ? & ? & ?). unfold valid, to_the_second. simpl.
  repeat split; try assumption; lia.
Qed.

End Names.

(** C6: the name [get_file_name] makes from the clock reading parses back
    to that reading, to the second. *)
Theorem file_name_round_trip (fromtimestamp : Z -> datetime) (w : World) :
  let now := fst (datetime_now fromtimestamp w) in
  valid now ->
  Spec.parse_file_name (fst (get_file_name fromtimestamp w)) = Some (to_the_second now).
Proof.
  intros now Hv. unfold get_file_name.
  change (datetime_now fromtimestamp w) with (now, snd (datetime_now fromtimestamp w)).
  simpl. by apply parse_file_name_of.
Qed.

Lemma file_name_round_trip_witness :
  valid (fst (datetime_now JST_time burst_world)) /\
  Spec.parse_file_name (fst (get_file_name JST_time burst_world)) =
    Some (mkDatetime 2025 9 10 10 0 0 0).
Proof.
  assert (Hv : valid (fst (datetime_now JST_time burst_world))) by (vm_compute; intuition discriminate).
  split; [exact Hv|].
  exact (file_name_round_trip JST_time burst_world Hv).
Defined.

(* ===================================================================== *)
(** * One capture *)
(* ===================================================================== *)

Section One_capture.
Variable fromtimestamp : Z -> datetime.

Lemma digit_mod_plain (v : Z) :
  Ascii.eqb (digit (v mod 10)) Path.SEP = false /\
  Ascii.eqb "/" (digit (v mod 10)) = false /\
  Ascii.eqb "." (digit (v mod 10)) = false.
Proof.
  pose proof (Z.mod_pos_bound v 10 eq_refl) as Hb.
  assert (Hc : v mod 10 = 0 \/ v mod 10 = 1 \/ v mod 10 = 2 \/ v mod 10 = 3 \/
               v mod 10 = 4 \/ v mod 10 = 5 \/ v mod 10 = 6 \/ v mod 10 = 7 \/
               v mod 10 = 8 \/ v mod 10 = 9) by lia.
  repeat (destruct Hc as [Hc|Hc]; [rewrite Hc; repeat split; reflexivity|]).
  rewrite Hc. repeat split; reflexivity.
Qed.

Lemma contains_sep_zpad (n : nat) (v : Z) (rest : string) :
  Path.contains_sep (zpad n v rest) = Path.contains_sep rest.
Proof.
  revert v rest. induction n as [|n IH]; intros v rest; [reflexivity|].
  change (zpad (S n) v rest) with (zpad n (v / 10) (String (digit (v mod 10)) rest)).
  rewrite IH. cbn [Path.contains_sep]. by destruct (digit_mod_plain v) as (-> & _).
Qed.

Lemma zpad_4 (v : Z) (rest : string) :
  zpad 4 v rest =
  String (digit (v / 10 / 10 / 10 mod 10))
    (String (digit (v / 10 / 10 mod 10))
       (String (digit (v / 10 mod 10)) (String (digit (v mod 10)) rest))).
Proof. reflexivity. Qed.

Lemma prefix_char (c d : ascii) (s : string) :
  Ascii.eqb c d = false -> String.prefix (String c EmptyString) (String d s) = false.
Proof.
  intros Hne. cbn [String.prefix].
  destruct (ascii_dec c d) as [->|_]; [|reflexivity].
  by rewrite Ascii.eqb_refl in Hne.
Qed.

Lemma file_name_plain (t : datetime) :
  Path.contains_sep (file_name_of t) = false /\
  String.prefix "/" (file_name_of t) = false /\
  Path.hidden (file_name_of t) = false.
Proof.
  split.
  - rewrite file_name_of_eq, !contains_sep_zpad. cbn [Path.contains_sep].
    rewrite !contains_sep_zpad. reflexivity.
  - rewrite file_name_of_eq, zpad_4. unfold Path.hidden.
    destruct (digit_mod_plain (year t / 10 / 10 / 10)) as (_ & Hs & Hd).
    split; by apply prefix_char.
Qed.

Lemma split_last_plain (name : string) :
  Path.contains_sep name = false -> Path.split_last name = None.
Proof.
  induction name as [|c name IH]; [reflexivity|]. simpl.
  intros H. apply orb_false_iff in H as [Hc Hn]. by rewrite (IH Hn), Hc.
Qed.

Lemma next_capture_path_eq (w : World) :
  next_capture_path fromtimestamp w =
  "plant_images/" ++ file_name_of (fst (datetime_now fromtimestamp w)).
Proof.
  unfold next_capture_path, Path.join.
  destruct (file_name_plain (fst (datetime_now fromtimestamp w))) as (_ & -> & _).
  reflexivity.
Qed.

Lemma split_last_app (d name : string) :
  Path.contains_sep name = false ->
  Path.split_last (d ++ String Path.SEP name) = Some d.
Proof.
  intros Hn. induction d as [|c d IH].
  - change (Path.split_last (String Path.SEP name) = Some "").
    cbn [Path.split_last]. by rewrite (split_last_plain _ Hn), Ascii.eqb_refl.
  - change (Path.split_last (String c (d ++ String Path.SEP name)) = Some (String c d)).
    cbn [Path.split_last]. by rewrite IH.
Qed.

Lemma parent_of_capture_path (w w0 : World) :
  SAVE_DIR ∈ dirs w0 ->
  cv2.parent_exists (next_capture_path fromtimestamp w) w0 = true.
Proof.
  intros Hd. rewrite next_capture_path_eq. unfold cv2.parent_exists.
  destruct (file_name_plain (fst (datetime_now fromtimestamp w))) as (Hs & _ & _).
  change ("plant_images/" ++ ?n) with (SAVE_DIR ++ String Path.SEP n).
  rewrite (split_last_app _ _ Hs). cbn [orb String.eqb SAVE_DIR].
  by apply bool_decide_eq_true_2.
Qed.

Lemma capture_and_save_success (w : World) (f : Frame) (rest : list Frame) :
  available (device w) = true ->
  held (device w) = false ->
  pending (device w) = f :: rest ->
  SAVE_DIR ∈ dirs w ->
  capture_and_save fromtimestamp w = delete_old_images fromtimestamp (captured fromtimestamp w f rest).
Proof.
  intros Ha Hh Hp Hd.
  unfold capture_and_save, cv2.VideoCapture, cv2.isOpened. rewrite Ha, Hh.
  unfold cv2.read, cv2.set_FRAME_HEIGHT, cv2.set_FRAME_WIDTH, set_device.
  cbn [andb negb device dirs files clock ticks stdout
       available held frame_width frame_height pending].
  rewrite Hp.
  unfold get_file_name, save_image, cv2.imwrite, datetime_now, time_time.
  cbn [andb negb device dirs files clock ticks stdout
       available held frame_width frame_height pending fst snd].
  pose proof (parent_of_capture_path w
    (mkWorld (dirs w) (files w) (mkDevice true true IMAGE_WIDTH IMAGE_HEIGHT rest)
             (clock w) (S (ticks w)) (stdout w)) Hd) as Hpar.
  unfold next_capture_path, datetime_now, time_time in Hpar. cbn [fst] in Hpar.
  rewrite Hpar.
  unfold cv2.release, set_files, set_device.
  cbn [andb negb device dirs files clock ticks stdout
       available held frame_width frame_height pending fst snd].
  reflexivity.
Qed.

End One_capture.

(* ===================================================================== *)
(** * Claims on [capture_and_save] *)
(* ===================================================================== *)

Section Capture_facts.
Variable fromtimestamp : Z -> datetime.


Lemma device_after_sweep (w : World) :
  device (fst (delete_old_images fromtimestamp w)) = device w.
Proof. by destruct (delete_old_images_surroundings fromtimestamp w) as [(_ & ? & _) _]. Qed.

Lemma stdout_after_sweep (w : World) :
  stdout (fst (delete_old_images fromtimestamp w)) = stdout w.
Proof. by destruct (delete_old_images_surroundings fromtimestamp w) as [(_ & _ & _ & ?) _]. Qed.

(** The camera cannot be opened: a message, and nothing else happens. *)
Lemma capture_open_failure (w : World) :
  available (device w) && negb (held (device w)) = false ->
  capture_and_save fromtimestamp w =
  (print "エラー: カメラに接続できませんでした。" w, None).
Proof.
  intros Hc. unfold capture_and_save, cv2.VideoCapture. by rewrite Hc.
Qed.


(** What a successful capture leaves at its path, the sweep included. *)
Lemma capture_and_save_file (w : World) (f : Frame) (rest : list Frame) :
  available (device w) = true ->
  held (device w) = false ->
  pending (device w) = f :: rest ->
  SAVE_DIR ∈ dirs w ->
  Datetime.ltb (fromtimestamp (clock w (S (ticks w))))
               (sub_days (fromtimestamp (clock w (S (S (ticks w))))) RETENTION_DAYS) = false ->
  let w' := fst (capture_and_save fromtimestamp w) in
  files w' !! next_capture_path fromtimestamp w =
    Some (mkFile (Jpeg f JPEG_QUALITY) (clock w (S (ticks w)))) /\
  device w' = mkDevice true false IMAGE_WIDTH IMAGE_HEIGHT rest /\
  stdout w' = stdout w /\
  snd (capture_and_save fromtimestamp w) = None.
Proof.
  intros Ha Hh Hp Hd Hfresh w'. subst w'.
  rewrite (capture_and_save_success fromtimestamp w f rest Ha Hh Hp Hd).
  rewrite delete_old_images_lookup, device_after_sweep, stdout_after_sweep,
          delete_old_images_returns.
  split; [|by repeat split].
  unfold expired, captured. cbn [files]. rewrite lookup_insert_eq. cbn [ctime].
  unfold sweep_cutoff, datetime_now, time_time. cbn [fst clock ticks].
  by rewrite Hfresh, andb_false_r.
Qed.

End Capture_facts.

(** C3, what the code does: the image saved is the first frame the
    camera delivers after it was opened, and only that frame is read; no
    second frame is taken. *)
Theorem capture_saves_first_frame (fromtimestamp : Z -> datetime) (w : World)
    (f : Frame) (rest : list Frame) :
  available (device w) = true ->
  held (device w) = false ->
  pending (device w) = f :: rest ->
  SAVE_DIR ∈ dirs w ->
  Datetime.ltb (fromtimestamp (clock w (S (ticks w))))
               (sub_days (fromtimestamp (clock w (S (S (ticks w))))) RETENTION_DAYS) = false ->
  let w' := fst (capture_and_save fromtimestamp w) in
  files w' !! Path.join SAVE_DIR (file_name_of (fromtimestamp (clock w (ticks w)))) =
    Some (mkFile (Jpeg f 95) (clock w (S (ticks w)))) /\
  pending (device w') = rest /\
  frame_width (device w') = 1280 /\ frame_height (device w') = 720.
Proof.
  intros Ha Hh Hp Hd Hfresh w'.
  destruct (capture_and_save_file fromtimestamp w f rest Ha Hh Hp Hd Hfresh)
    as (Hfile & Hdev & _ & _).
  fold w' in Hfile, Hdev. split; [exact Hfile|]. rewrite Hdev. by repeat split.
Qed.

Lemma capture_saves_first_frame_witness :
  let w' := fst (capture_and_save JST_time burst_world) in
  files w' !! "plant_images/20250910_100000.jpg" =
    Some (mkFile (Jpeg 101 95) (T_2025_09_10_100000 + 100000)) /\
  pending (device w') = [102; 103] /\
  frame_width (device w') = 1280 /\ frame_height (device w') = 720.
Proof.
  apply (capture_saves_first_frame JST_time burst_world 101 [102; 103]);
    vm_compute; reflexivity.
Defined.



(** Clock readings of the same second give the same file name. *)
Lemma same_second_same_name (t1 t2 : datetime) :
  to_the_second t1 = to_the_second t2 -> file_name_of t1 = file_name_of t2.
Proof.
  intros H. change (file_name_of (to_the_second t1) = file_name_of (to_the_second t2)).
  by rewrite H.
Qed.




Example dark_world_message :
  stdout (fst (capture_and_save JST_time dark_world)) =
  ["エラー: フレームを読み込めませんでした。"].
Proof. vm_compute. reflexivity. Qed.

(* ===================================================================== *)
(** * Claims on the HTTP layer *)
(* ===================================================================== *)

(** The settings [config.py] falls back to. *)
Example default_watering_settings :
  exists cfg, Config.load ∅ = inr cfg /\
              Config.WATERING_INTERVAL_HOURS cfg = 12 /\
              Config.SOIL_MOISTURE_THRESHOLD cfg = 159.
Proof. eexists. split; [vm_compute; reflexivity|]. split; reflexivity. Qed.



Lemma member_keys (k : string) (r : Response) : is_Some (member k r) -> In k (keys r).
Proof.
  unfold member, keys. destruct r as [c b]. simpl. induction b as [|[k' v] b IH]; simpl.
  - by intros [? ?].
  - destruct (String.eqb_spec k' k) as [->|Hne]; [by left|]. intros H. right. by apply IH.
Qed.

(** C8, as stated, fails: the answer has three members, the status, the
    time and the version; neither the controller state nor the uptime. *)
Lemma status_lacks_state_and_uptime :
  ~ carries_state_and_uptime (fst (api_status JST_time morning_server)).
Proof.
  intros (k1 & k2 & k3 & k4 & Hnd & Hall).
  assert (Hk : forall k, is_Some (member k (fst (api_status JST_time morning_server))) ->
                         k = "status" \/ k = "timestamp" \/ k = "version").
  { intros k Hk. apply member_keys in Hk.
    change (In k ["status"; "timestamp"; "version"]) in Hk.
    destruct Hk as [<-|[<-|[<-|[]]]]; auto. }
  apply Forall_cons in Hall as [H1 Hall]. apply Forall_cons in Hall as [H2 Hall].
  apply Forall_cons in Hall as [H3 Hall]. apply Forall_cons in Hall as [H4 _].
  apply Hk in H1, H2, H3, H4.
  destruct H1 as [-> | [-> | ->]], H2 as [-> | [-> | ->]],
           H3 as [-> | [-> | ->]], H4 as [-> | [-> | ->]];
    revert Hnd;
    match goal with
    | |- NoDup ?l -> False =>
        change (~ NoDup l); apply (bool_decide_eq_false_1 (NoDup l)); vm_compute; reflexivity
    end.
Qed.

(** C8, amended: the status endpoint always answers (code 200), changes
    nothing but the count of clock readings, and its answer has exactly
    the members status ("running"), timestamp (the current local time in
    ISO format) and version ("1.0.0"). *)
Theorem api_status_answer (fromtimestamp : Z -> datetime) (s : Server) :
  let r := fst (api_status fromtimestamp s) in
  let s' := snd (api_status fromtimestamp s) in
  status_code r = 200 /\
  body r = [("status", JString "running");
            ("timestamp", JString (isoformat (fromtimestamp (clock (world s) (ticks (world s))))));
            ("version", JString "1.0.0")] /\
  log s' = log s /\
  files (world s') = files (world s) /\ dirs (world s') = dirs (world s) /\
  device (world s') = device (world s) /\ stdout (world s') = stdout (world s) /\
  clock (world s') = clock (world s).
Proof. by repeat split. Qed.

(* ===================================================================== *)
(** * Claims on the configuration *)
(* ===================================================================== *)

Section Configuration.

Lemma environ_int_inl (environ : gmap string string) (key : string) (default : Z) (e : exn) :
  Config.environ_int environ key default = inl e ->
  exists s, environ !! key = Some s /\ Config.int_of_string s = None.
Proof.
  unfold Config.environ_int. destruct (environ !! key) as [s|]; [|discriminate].
  destruct (Config.int_of_string s) eqn:Hs; [discriminate|]. eauto.
Qed.

Lemma environ_int_invalid (environ : gmap string string) (key s : string) (default : Z) :
  environ !! key = Some s -> Config.int_of_string s = None ->
  Config.environ_int environ key default = inl (ValueError s).
Proof. intros Hk Hs. unfold Config.environ_int. by rewrite Hk, Hs. Qed.

Lemma environ_int_missing (environ : gmap string string) (key : string) (default : Z) :
  environ !! key = None -> Config.environ_int environ key default = inr default.
Proof. intros Hk. unfold Config.environ_int. by rewrite Hk. Qed.

End Configuration.

(** C9, as stated, fails: with every setting missing the process starts
    and serves, on the defaults. *)
Lemma starts_without_settings : ~ refuses_bad_configuration bare_host.
Proof.
  intros H. apply (H ltac:(exists "SENSOR_CHECK_INTERVAL", 60; split;
                            [by left | left; apply lookup_empty])
                     (Main.mkApp "dev-secret-key" true)).
  vm_compute. reflexivity.
Qed.

(** The entry point does not execute the class body of [config.py]: a
    setting that is not a number does not keep it from serving. *)
Example starts_with_bad_number :
  Main.main misconfigured_host = Main.Serving (Main.mkApp "dev-secret-key" true) /\
  Config.load (Main.environ misconfigured_host) = inl (ValueError "abc").
Proof. split; vm_compute; reflexivity. Qed.

(** C9, amended: executing the class body of [config.py] fails (with
    ValueError, no configuration results) exactly when one of its integer
    settings is present in the environment with a value that [int]
    rejects; a setting that is missing is no error, its default is
    taken. *)
Theorem config_load_fails_iff (environ : gmap string string) :
  (exists e, Config.load environ = inl e) <->
  (exists key default s,
      In (key, default) Config.INT_SETTINGS /\
      environ !! key = Some s /\ Config.int_of_string s = None).
Proof.
  split.
  - intros [e He]. unfold Config.load, Config.bind in He.
    repeat match type of He with
           | match Config.environ_int ?env ?k ?d with _ => _ end = _ =>
               let E := fresh "E" in
               destruct (Config.environ_int env k d) eqn:E;
               [apply environ_int_inl in E as (s & Hs & Hi);
                exists k, d, s; split; [simpl; tauto | by split] |]
           end.
    discriminate He.
  - intros (key & default & s & Hin & Hs & Hi).
    unfold Config.load, Config.bind.
    repeat match goal with
           | |- exists e, match Config.environ_int ?env ?k ?d with _ => _ end = _ =>
               let E := fresh "E" in
               destruct (Config.environ_int env k d) eqn:E; [eauto|]
           end.
    exfalso. simpl in Hin.
    repeat (destruct Hin as [Hin|Hin];
            [injection Hin as Hk Hd; subst key default;
             match goal with
             | Hs' : environ !! ?k = Some s,
               E : Config.environ_int environ ?k _ = inr _ |- _ =>
                 rewrite (environ_int_invalid environ k s _ Hs' Hi) in E; discriminate E
             end|]).
    exact Hin.
Qed.

(* ===================================================================== *)
(** * Further properties of the retention sweep *)
(* ===================================================================== *)

Section Order.

Lemma lex_ltb_irrefl (a : list Z) : lex_ltb a a = false.
Proof.
  induction a as [|x a IH]; [reflexivity|]. simpl.
  by rewrite Z.ltb_irrefl, Z.eqb_refl, IH.
Qed.


Lemma ltb_irrefl (t : datetime) : Datetime.ltb t t = false.
Proof. apply lex_ltb_irrefl. Qed.


End Order.



(** X2: a file whose ctime is exactly the cutoff, RETENTION_DAYS before
    the sweep to the microsecond, is kept: the comparison is strict. *)
Theorem sweep_keeps_file_at_cutoff (fromtimestamp : Z -> datetime) (w : World)
    (path : string) (f : File) :
  files w !! path = Some f ->
  fromtimestamp (ctime f) = sweep_cutoff fromtimestamp w ->
  files (fst (delete_old_images fromtimestamp w)) !! path = Some f.
Proof.
  intros Hf Hc. rewrite delete_old_images_lookup. unfold expired.
  by rewrite Hf, Hc, ltb_irrefl, andb_false_r.
Qed.

Lemma sweep_keeps_file_at_cutoff_witness :
  files boundary_world !! "plant_images/20250612_100000.jpg" =
    Some (mkFile (Jpeg 1 95) T_2025_06_12_100000) /\
  files (fst (delete_old_images JST_time boundary_world)) !! "plant_images/20250612_100000.jpg" =
    Some (mkFile (Jpeg 1 95) T_2025_06_12_100000).
Proof.
  split; [vm_compute; reflexivity|].
  apply (sweep_keeps_file_at_cutoff JST_time boundary_world); vm_compute; reflexivity.
Defined.



(* ===================================================================== *)
(** * Further properties of the capture manager *)
(* ===================================================================== *)

Section Manager.
Variable fromtimestamp : Z -> datetime.

Lemma zpad_app (n : nat) (v : Z) (a b : string) :
  zpad n v (a ++ b) = zpad n v a ++ b.
Proof.
  revert v a. induction n as [|n IH]; intros v a; [reflexivity|].
  change (zpad (S n) v (a ++ b)) with (zpad n (v / 10) (String (digit (v mod 10)) a ++ b)).
  by rewrite IH.
Qed.

(** The name without its extension. *)
Lemma file_name_stem (t : datetime) :
  exists stem, file_name_of t = stem ++ ".jpg" /\ Path.contains_sep stem = false.
Proof.
  exists (zpad 4 (year t) (zpad 2 (month t) (zpad 2 (day t) (String "_"
            (zpad 2 (hour t) (zpad 2 (minute t) (zpad 2 (second t) ""))))))).
  split.
  - rewrite file_name_of_eq.
    change ".jpg" with ("" ++ ".jpg") at 1. rewrite !zpad_app.
    change (String "_" (?x ++ ".jpg")) with (String "_" x ++ ".jpg").
    by rewrite !zpad_app.
  - rewrite !contains_sep_zpad. cbn [Path.contains_sep].
    rewrite !contains_sep_zpad. reflexivity.
Qed.

Lemma init_surroundings (w : World) :
  files (PlantCaptureManager_init w) = files w /\
  device (PlantCaptureManager_init w) = device w /\
  clock (PlantCaptureManager_init w) = clock w /\
  ticks (PlantCaptureManager_init w) = ticks w.
Proof. unfold PlantCaptureManager_init. by destruct (os_path_exists SAVE_DIR w). Qed.

Lemma init_makes_directory (w : World) :
  files w !! SAVE_DIR = None -> SAVE_DIR ∈ dirs (PlantCaptureManager_init w).
Proof.
  intros Hf. unfold PlantCaptureManager_init, os_path_exists.
  destruct (bool_decide (SAVE_DIR ∈ dirs w)) eqn:Hd.
  - cbn [orb]. apply bool_decide_eq_true in Hd. exact Hd.
  - rewrite Hf. rewrite (bool_decide_eq_false_2 (is_Some None)) by (by intros [? ?]).
    cbn [orb]. unfold print, set_dirs. cbn [dirs]. set_solver.
Qed.

(** The camera is opened and a frame is read, but the capture directory
    is missing: what reaches the sweep is the world with the frame
    consumed and nothing written. *)
Lemma capture_and_save_unwritten (w : World) (f : Frame) (rest : list Frame) :
  available (device w) = true ->
  held (device w) = false ->
  pending (device w) = f :: rest ->
  SAVE_DIR ∉ dirs w ->
  capture_and_save fromtimestamp w =
  delete_old_images fromtimestamp
    (mkWorld (dirs w) (files w) (mkDevice true false IMAGE_WIDTH IMAGE_HEIGHT rest)
             (clock w) (S (ticks w)) (stdout w)).
Proof.
  intros Ha Hh Hp Hd.
  unfold capture_and_save, cv2.VideoCapture, cv2.isOpened. rewrite Ha, Hh.
  unfold cv2.read, cv2.set_FRAME_HEIGHT, cv2.set_FRAME_WIDTH, set_device.
  cbn [andb negb device dirs files clock ticks stdout
       available held frame_width frame_height pending].
  rewrite Hp.
  unfold get_file_name, save_image, cv2.imwrite, datetime_now, time_time.
  cbn [andb negb device dirs files clock ticks stdout
       available held frame_width frame_height pending fst snd].
  assert (Hpar : forall w0, dirs w0 = dirs w ->
            cv2.parent_exists
              (Path.join SAVE_DIR (file_name_of (fromtimestamp (clock w (ticks w))))) w0 = false).
  { intros w0 Hw0.
    pose proof (next_capture_path_eq fromtimestamp w) as Hn.
    unfold next_capture_path, datetime_now, time_time in Hn. cbn [fst] in Hn.
    rewrite Hn. unfold cv2.parent_exists.
    destruct (file_name_plain (fromtimestamp (clock w (ticks w)))) as (Hs & _ & _).
    change ("plant_images/" ++ ?n) with (SAVE_DIR ++ String Path.SEP n).
    rewrite (split_last_app _ _ Hs). cbn [orb String.eqb SAVE_DIR].
    apply bool_decide_eq_false_2. by rewrite Hw0. }
  rewrite Hpar by reflexivity.
  unfold cv2.release, set_files, set_device.
  cbn [andb negb device dirs files clock ticks stdout
       available held frame_width frame_height pending fst snd].
  reflexivity.
Qed.

End Manager.

(** X4: constructing the manager makes the capture directory when it is
    missing and touches neither the files nor the camera; constructing
    it again changes nothing. *)
Theorem init_creates_directory_once (w : World) :
  files w !! SAVE_DIR = None ->
  let w1 := PlantCaptureManager_init w in
  SAVE_DIR ∈ dirs w1 /\ files w1 = files w /\ device w1 = device w /\
  PlantCaptureManager_init w1 = w1 /\
  (SAVE_DIR ∈ dirs w -> w1 = w).
Proof.
  intros Hf w1. pose proof (init_makes_directory w Hf) as Hd. fold w1 in Hd.
  destruct (init_surroundings w) as (Hfs & Hdev & _ & _). fold w1 in Hfs, Hdev.
  repeat split; try assumption.
  - unfold PlantCaptureManager_init at 1, os_path_exists.
    by rewrite (bool_decide_eq_true_2 _ Hd).
  - intros Hw. unfold w1, PlantCaptureManager_init, os_path_exists.
    by rewrite (bool_decide_eq_true_2 _ Hw).
Qed.

Lemma init_creates_directory_once_witness :
  files fresh_world !! SAVE_DIR = None /\
  SAVE_DIR ∈ dirs (PlantCaptureManager_init fresh_world) /\
  PlantCaptureManager_init (PlantCaptureManager_init fresh_world) =
    PlantCaptureManager_init fresh_world.
Proof.
  assert (Hf : files fresh_world !! SAVE_DIR = None) by reflexivity.
  split; [exact Hf|].
  destruct (init_creates_directory_once fresh_world Hf) as (Hd & _ & _ & Hi & _).
  by split.
Defined.

(** X5: when the camera cannot be opened or delivers no frame,
    [capture_and_save] writes nothing and deletes nothing (the sweep is
    not run), reads no clock, prints one message and raises nothing. *)
Theorem failed_capture_leaves_directory (fromtimestamp : Z -> datetime) (w : World) :
  available (device w) && negb (held (device w)) = false \/ pending (device w) = [] ->
  let w' := fst (capture_and_save fromtimestamp w) in
  files w' = files w /\ dirs w' = dirs w /\ ticks w' = ticks w /\
  (exists message, stdout w' = (stdout w ++ [message])%list) /\
  snd (capture_and_save fromtimestamp w) = None.
Proof.
  intros Hfail w'.
  destruct (available (device w) && negb (held (device w))) eqn:Hopen.
  - destruct Hfail as [Hfail|Hp]; [discriminate|].
    subst w'. unfold capture_and_save, cv2.VideoCapture. rewrite Hopen.
    unfold cv2.read, cv2.set_FRAME_HEIGHT, cv2.set_FRAME_WIDTH, set_device.
    cbn [andb negb device dirs files clock ticks stdout
         available held frame_width frame_height pending cv2.isOpened].
    rewrite Hp. repeat split. by eexists.
  - subst w'. rewrite (capture_open_failure fromtimestamp w Hopen).
    repeat split. by eexists.
Qed.

Lemma failed_capture_leaves_directory_witness :
  pending (device dark_world) = [] /\
  files (fst (capture_and_save JST_time dark_world)) = files dark_world /\
  snd (capture_and_save JST_time dark_world) = None.
Proof.
  split; [reflexivity|].
  destruct (failed_capture_leaves_directory JST_time dark_world (or_intror eq_refl))
    as (Hf & _ & _ & _ & He).
  by split.
Defined.

(** X6: when the capture directory is missing, the frame that was read is
    lost without a word: no file is added, nothing is printed, nothing
    is raised, and the camera is released. *)
Theorem unwritable_capture_is_silent (fromtimestamp : Z -> datetime) (w : World)
    (f : Frame) (rest : list Frame) :
  available (device w) = true ->
  held (device w) = false ->
  pending (device w) = f :: rest ->
  SAVE_DIR ∉ dirs w ->
  let w' := fst (capture_and_save fromtimestamp w) in
  files w' ⊆ files w /\
  stdout w' = stdout w /\
  snd (capture_and_save fromtimestamp w) = None /\
  pending (device w') = rest /\ held (device w') = false.
Proof.
  intros Ha Hh Hp Hd w'. subst w'.
  rewrite (capture_and_save_unwritten fromtimestamp w f rest Ha Hh Hp Hd).
  rewrite stdout_after_sweep, device_after_sweep, delete_old_images_returns.
  repeat split. apply map_subseteq_spec. intros q x.
  rewrite delete_old_images_lookup. cbn [files].
  by destruct (Path.glob_match SAVE_DIR "*.jpg" q && expired _ _ _ q).
Qed.

Lemma unwritable_capture_is_silent_witness :
  let w' := fst (capture_and_save JST_time fresh_world) in
  files w' ⊆ files fresh_world /\
  stdout w' = stdout fresh_world /\
  snd (capture_and_save JST_time fresh_world) = None /\
  pending (device w') = [8] /\ held (device w') = false.
Proof.
  apply (unwritable_capture_is_silent JST_time fresh_world 7 [8]);
    try reflexivity.
  vm_compute. discriminate.
Defined.

(** X7: the path a capture is saved under is one the sweep looks at:
    directly inside SAVE_DIR and matching [*.jpg]. *)
Theorem capture_path_is_swept (fromtimestamp : Z -> datetime) (w : World) :
  Path.glob_match SAVE_DIR "*.jpg" (next_capture_path fromtimestamp w) = true.
Proof.
  apply glob_match_jpg. rewrite next_capture_path_eq.
  destruct (file_name_stem (fst (datetime_now fromtimestamp w))) as (stem & Hn & Hs).
  exists stem. split; [by rewrite Hn|]. split; [exact Hs|].
  rewrite <- Hn. by destruct (file_name_plain (fst (datetime_now fromtimestamp w))) as (_ & _ & ?).
Qed.

(** X8: two clock readings get the same file name exactly when they lie in
    the same second. *)
Theorem file_names_differ_by_second (fromtimestamp : Z -> datetime) (w1 w2 : World) :
  let now1 := fst (datetime_now fromtimestamp w1) in
  let now2 := fst (datetime_now fromtimestamp w2) in
  valid now1 -> valid now2 ->
  (fst (get_file_name fromtimestamp w1) = fst (get_file_name fromtimestamp w2) <->
   to_the_second now1 = to_the_second now2).
Proof.
  intros now1 now2 Hv1 Hv2.
  change (fst (get_file_name fromtimestamp w1)) with (file_name_of now1).
  change (fst (get_file_name fromtimestamp w2)) with (file_name_of now2).
  split.
  - intros Hn. pose proof (parse_file_name_of now1 Hv1) as H1.
    rewrite Hn, (parse_file_name_of now2 Hv2) in H1.
    apply (inj Some) in H1. symmetry. exact H1.
  - apply same_second_same_name.
Qed.

Lemma file_names_differ_by_second_witness :
  fst (get_file_name JST_time burst_world) =
    fst (get_file_name JST_time (snd (get_file_name JST_time burst_world))) <->
  to_the_second (fst (datetime_now JST_time burst_world)) =
    to_the_second (fst (datetime_now JST_time (snd (get_file_name JST_time burst_world)))).
Proof.
  apply (file_names_differ_by_second JST_time burst_world
           (snd (get_file_name JST_time burst_world)));
    vm_compute; intuition discriminate.
Defined.



(* ===================================================================== *)
(** * Further properties of [config.py] *)
(* ===================================================================== *)

Section Settings.

Lemma environ_int_error (environ : gmap string string) (key : string) (default : Z) (e : exn) :
  Config.environ_int environ key default = inl e ->
  exists s, environ !! key = Some s /\ Config.int_of_string s = None /\ e = ValueError s.
Proof.
  unfold Config.environ_int. destruct (environ !! key) as [s|]; [|discriminate].
  destruct (Config.int_of_string s) eqn:Hs; [discriminate|]. intros [= <-]. eauto.
Qed.

Lemma environ_int_value (environ : gmap string string) (key : string) (default z : Z) :
  Config.environ_int environ key default = inr z ->
  setting_value environ key default = Some z /\ ~ invalid_setting environ key.
Proof.
  unfold Config.environ_int, setting_value, invalid_setting.
  destruct (environ !! key) as [s|].
  - destruct (Config.int_of_string s) eqn:Hs; [|discriminate]. intros [= <-].
    split; [reflexivity|]. intros (s' & [= <-] & Hn). congruence.
  - intros [= <-]. split; [reflexivity|]. by intros (s' & ? & _).
Qed.

End Settings.

(** X10: in a configuration that loads, every integer setting holds the
    number written in its environment variable, or its default when the
    variable is not set; no range is imposed on the number. *)
Theorem config_takes_settings (environ : gmap string string) (c : Config.Config)
    (key : string) (default : Z) :
  Config.load environ = inr c ->
  In (key, default) Config.INT_SETTINGS ->
  config_int key c = setting_value environ key default.
Proof.
  intros Hc Hin. unfold Config.load, Config.bind in Hc.
  repeat match type of Hc with
         | match Config.environ_int ?env ?k ?d with _ => _ end = _ =>
             let E := fresh "E" in
             destruct (Config.environ_int env k d) eqn:E; [discriminate Hc|];
             apply environ_int_value in E as [E _]
         end.
  injection Hc as <-. simpl in Hin.
  repeat (destruct Hin as [Hin|Hin];
          [injection Hin as <- <-; symmetry; assumption|]).
  destruct Hin.
Qed.

Lemma config_takes_settings_witness :
  config_int "SOIL_MOISTURE_THRESHOLD"
    (Config.mkConfig "すくすくミントちゃん" "1.0.0" "dev-secret-key-change-in-production"
       false "/mnt/usb-storage" 60 1800 300 (-40) 12 5 100 1280 720 "06:00" None
       "https://notify-api.line.me/api/notify" "INFO" "/mnt/usb-storage/logs") =
  setting_value {[ "SOIL_MOISTURE_THRESHOLD" := " -40 " ]} "SOIL_MOISTURE_THRESHOLD" 159.
Proof.
  apply (config_takes_settings {[ "SOIL_MOISTURE_THRESHOLD" := " -40 " ]}).
  - vm_compute. reflexivity.
  - simpl. tauto.
Defined.

(** X11: when loading fails, the error names the value of the first
    integer setting, in the order of the class body, that [int] rejects:
    the settings before it are valid or not set. *)
Theorem config_reports_first_invalid (environ : gmap string string) (e : exn) :
  Config.load environ = inl e ->
  exists pre key default post s,
    Config.INT_SETTINGS = (pre ++ (key, default) :: post)%list /\
    environ !! key = Some s /\ Config.int_of_string s = None /\
    e = ValueError s /\
    Forall (fun kd => ~ invalid_setting environ (fst kd)) pre.
Proof.
  intros He. unfold Config.load, Config.bind in He.
  repeat match type of He with
         | match Config.environ_int ?env ?k ?d with _ => _ end = _ =>
             let E := fresh "E" in
             destruct (Config.environ_int env k d) eqn:E;
             [ apply environ_int_error in E as (s & Hs & Hi & ->);
               injection He as <-
             | apply environ_int_value in E as [_ E] ]
         end;
    try discriminate He.
  all: match goal with
       | Hs : _ !! ?k = Some ?s |- _ =>
           let pre := eval cbv in
             (fst (fold_left (fun (acc : list (string * Z) * bool) kd =>
                                if snd acc then acc
                                else if String.eqb (fst kd) k then (fst acc, true)
                                else ((fst acc ++ [kd])%list, false))
                             Config.INT_SETTINGS ([], false))) in
           let post := eval cbv in
             (skipn (S (length pre)) Config.INT_SETTINGS) in
           exists pre, k;
           match eval cbv in (nth (length pre) Config.INT_SETTINGS ("", 0)) with
           | (_, ?d) => exists d, post, s
           end
       end.
  all: split; [reflexivity|]; split; [assumption|]; split; [assumption|];
       split; [reflexivity|].
  all: repeat (apply Forall_cons; split; [assumption|]); apply Forall_nil; exact I.
Qed.

Lemma config_reports_first_invalid_witness :
  exists pre key default post s,
    Config.INT_SETTINGS = (pre ++ (key, default) :: post)%list /\
    ({[ "WATER_AMOUNT_ML" := "lots"; "SOIL_MOISTURE_INTERVAL" := "5m" ]} : gmap string string)
      !! key = Some s /\
    Config.int_of_string s = None /\
    ValueError "5m" = ValueError s /\
    Forall (fun kd => ~ invalid_setting
                        {[ "WATER_AMOUNT_ML" := "lots"; "SOIL_MOISTURE_INTERVAL" := "5m" ]}
                        (fst kd)) pre.
Proof.
  apply (config_reports_first_invalid
           {[ "WATER_AMOUNT_ML" := "lots"; "SOIL_MOISTURE_INTERVAL" := "5m" ]}).
  vm_compute. reflexivity.
Defined.

(** X12: the classes reached through the dictionary [config] do not see
    the environment variable DATA_BASE_PATH: every one of them overrides
    the attribute, so the dictionary is the same whatever the variable
    is set to. *)
Theorem config_dictionary_ignores_data_base_path
    (environ : gmap string string) (v : string) :
  config_dictionary (<["DATA_BASE_PATH" := v]> environ) = config_dictionary environ.
Proof.
  assert (Hint : forall k d, k <> "DATA_BASE_PATH" ->
            Config.environ_int (<["DATA_BASE_PATH" := v]> environ) k d =
            Config.environ_int environ k d).
  { intros k d Hk. unfold Config.environ_int. by rewrite lookup_insert_ne. }
  assert (Hget : forall k d, k <> "DATA_BASE_PATH" ->
            Config.environ_get (<["DATA_BASE_PATH" := v]> environ) k d =
            Config.environ_get environ k d).
  { intros k d Hk. unfold Config.environ_get. by rewrite lookup_insert_ne. }
  unfold config_dictionary, import_config, Config.load, Config.bind.
  assert (Hpath : forall d, Config.environ_get (<["DATA_BASE_PATH" := v]> environ)
                              "DATA_BASE_PATH" d = v).
  { intros d. unfold Config.environ_get. by rewrite lookup_insert_eq. }
  rewrite !Hint by done. rewrite Hpath. rewrite !Hget by done.
  rewrite (lookup_insert_ne environ "DATA_BASE_PATH" "LINE_NOTIFY_TOKEN") by done.
  repeat match goal with
         | |- context [match Config.environ_int ?env ?k ?d with _ => _ end] =>
             destruct (Config.environ_int env k d); [reflexivity|]
         end.
  unfold DevelopmentConfig, ProductionConfig, TestingConfig, overriding.
  cbn [Config.PROJECT_NAME Config.VERSION Config.SECRET_KEY Config.DEBUG
       Config.DATA_BASE_PATH Config.SENSOR_CHECK_INTERVAL
       Config.TEMPERATURE_HUMIDITY_INTERVAL Config.SOIL_MOISTURE_INTERVAL
       Config.SOIL_MOISTURE_THRESHOLD Config.WATERING_INTERVAL_HOURS
       Config.WATERING_DURATION_SECONDS Config.WATER_AMOUNT_ML
       Config.CAMERA_RESOLUTION_WIDTH Config.CAMERA_RESOLUTION_HEIGHT
       Config.AUTO_CAPTURE_TIME Config.LINE_NOTIFY_TOKEN Config.LINE_NOTIFY_API_URL
       Config.LOG_LEVEL Config.LOG_FILE_PATH].
  reflexivity.
Qed.

(** X13: the dictionary has the four names development, production,
    testing and default, the last being the development class; each
    class has the integer settings and the secret key of [Config], and
    only the testing class defines TESTING. *)
Theorem config_dictionary_entries (environ : gmap string string)
    (c : Config.Config) (d : gmap string ConfigClass) :
  import_config environ = inr (c, d) ->
  dom d = ({[ "development"; "production"; "testing"; "default" ]} : gset string) /\
  d !! "default" = d !! "development" /\
  forall name cls,
    d !! name = Some cls ->
    config_ints (attributes cls) = config_ints c /\
    Config.SECRET_KEY (attributes cls) = Config.SECRET_KEY c /\
    (TESTING cls = Some true <-> name = "testing").
Proof.
  unfold import_config. destruct (Config.load environ) as [e|c0]; [discriminate|].
  intros [= <- <-]. split; [|split].
  - rewrite !dom_insert_L, dom_singleton_L. set_solver.
  - reflexivity.
  - intros name cls Hl.
    destruct (decide (name = "development")) as [->|N1].
    { rewrite lookup_insert_eq in Hl. injection Hl as <-. by repeat split. }
    rewrite lookup_insert_ne in Hl by done.
    destruct (decide (name = "production")) as [->|N2].
    { rewrite lookup_insert_eq in Hl. injection Hl as <-. by repeat split. }
    rewrite lookup_insert_ne in Hl by done.
    destruct (decide (name = "testing")) as [->|N3].
    { rewrite lookup_insert_eq in Hl. injection Hl as <-. by repeat split. }
    rewrite lookup_insert_ne in Hl by done.
    destruct (decide (name = "default")) as [->|N4].
    { rewrite lookup_singleton_eq in Hl. injection Hl as <-. by repeat split. }
    rewrite lookup_singleton_ne in Hl by done. discriminate Hl.
Qed.

Lemma config_dictionary_entries_witness :
  exists c d, import_config ∅ = inr (c, d) /\
              d !! "default" = d !! "development".
Proof.
  destruct (import_config ∅) as [e|[c d]] eqn:Hi; [vm_compute in Hi; discriminate Hi|].
  exists c, d. split; [reflexivity|].
  by destruct (config_dictionary_entries ∅ c d Hi) as (_ & ? & _).
Defined.

(* ===================================================================== *)
(** * Further properties of [main.py] and [logger.py] *)
(* ===================================================================== *)

Section Letters.

Lemma upper_lower_char (c : ascii) :
  Main.upper_char (Main.lower_char c) = Main.upper_char c /\
  Main.upper_char (Main.upper_char c) = Main.upper_char c.
Proof. destruct c as [[] [] [] [] [] [] [] []]; split; reflexivity. Qed.

Lemma upper_lower (s : string) : Main.upper (Main.lower s) = Main.upper s.
Proof.
  induction s as [|c s IH]; [reflexivity|].
  unfold Main.upper, Main.lower in *. cbn [Main.map_string].
  rewrite IH. by destruct (upper_lower_char c) as [-> _].
Qed.

Lemma upper_upper (s : string) : Main.upper (Main.upper s) = Main.upper s.
Proof.
  induction s as [|c s IH]; [reflexivity|].
  unfold Main.upper in *. cbn [Main.map_string].
  rewrite IH. by destruct (upper_lower_char c) as [_ ->].
Qed.

End Letters.



(** X15: LOG_LEVEL is read without regard to the case of its letters:
    written in lower case or in upper case it starts the process the
    same way. *)
Theorem log_level_ignores_case (environ : gmap string string) (v : string)
    (writable free : bool) :
  ascii_only v = true ->
  let start x := Main.main (Main.mkHost (<["LOG_LEVEL" := x]> environ) writable free) in
  start (Main.lower v) = start v /\ start (Main.upper v) = start v.
Proof.
  intros _ start. subst start.
  unfold Main.main, Main.setup_logging, Main.create_app, Config.environ_get.
  cbn [Main.environ Main.logs_writable Main.port_free].
  rewrite !lookup_insert_eq. rewrite !lookup_insert_ne by done.
  by rewrite upper_lower, upper_upper.
Qed.

Lemma log_level_ignores_case_witness :
  Main.main (Main.mkHost (<["LOG_LEVEL" := Main.lower "Debug"]> ∅) true true) =
  Main.main (Main.mkHost (<["LOG_LEVEL" := "Debug"]> ∅) true true).
Proof.
  exact (proj1 (log_level_ignores_case ∅ "Debug" true true eq_refl)).
Defined.

Section Logging_facts.

Lemma level_of_name_levels (name : string) :
  existsb (String.eqb name) Main.LEVELS = true <-> is_Some (Logging.level_of_name name).
Proof.
  unfold Main.LEVELS, Logging.level_of_name. cbn [existsb].
  repeat (destruct (String.eqb name _); [split; [by eexists | reflexivity]|]).
  split; [discriminate | by intros [? ?]].
Qed.

(** What a successful [setup_logging] leaves. *)
Lemma setup_logging_inr (h : Main.Host) (now : datetime) (st st1 : Logging.State) :
  Logging.setup_logging h now st = inr st1 ->
  exists level,
    Logging.level_of_name
      (Main.upper (Config.environ_get (Main.environ h) "LOG_LEVEL" "INFO")) = Some level /\
    Main.setup_logging h = None /\
    st1 = Logging.mkState level [Logging.file_handler now; Logging.console_handler]
            (<["smart_planter" := Logging.INFO]> (Logging.logger_levels st)).
Proof.
  unfold Logging.setup_logging. destruct (Main.setup_logging h); [discriminate|].
  destruct (Logging.level_of_name _) as [level|]; [|discriminate].
  intros [= <-]. by exists level.
Qed.

(** It fails exactly when [Main.setup_logging] does, with its error. *)
Lemma setup_logging_inl (h : Main.Host) (now : datetime) (st : Logging.State) (e : exn) :
  Logging.setup_logging h now st = inl e <-> Main.setup_logging h = Some e.
Proof.
  unfold Logging.setup_logging.
  destruct (Main.setup_logging h) as [e'|] eqn:Hm.
  - split; congruence.
  - unfold Main.setup_logging in Hm.
    destruct (negb (Main.logs_writable h)); [discriminate|].
    destruct (existsb _ Main.LEVELS) eqn:Hx; [|discriminate].
    apply level_of_name_levels in Hx as [level Hl]. rewrite Hl. split; discriminate.
Qed.

Lemma delivered_after_setup (level0 : Z) (now : datetime) (levels : gmap string Z)
    (name : string) (level : Z) (hd : Logging.Handler) :
  let st1 := Logging.mkState level0 [Logging.file_handler now; Logging.console_handler] levels in
  In hd (Logging.delivered st1 name level) <->
  0 < level /\ Logging.effective_level st1 name <= level /\
  Logging.handler_level hd <= level /\
  (hd = Logging.file_handler now \/ hd = Logging.console_handler).
Proof.
  intros st1. unfold Logging.delivered, Logging.enabled.
  cbn [Logging.root_handlers st1].
  destruct (0 <? level) eqn:H0; cbn [andb].
  - apply Z.ltb_lt in H0.
    destruct (Logging.effective_level st1 name <=? level) eqn:He.
    + apply Z.leb_le in He. rewrite filter_In. cbn [In]. rewrite Z.leb_le.
      intuition congruence.
    + apply Z.leb_gt in He. cbn [In]. intuition lia.
  - apply Z.ltb_ge in H0. cbn [In]. intuition lia.
Qed.

Lemma dotless_get (name : string) (k : nat) (c : ascii) :
  dotless name = true -> String.get k name = Some c -> Ascii.eqb c "." = false.
Proof.
  revert k. induction name as [|d name IH]; intros k Hd Hg; [discriminate|].
  cbn [dotless] in Hd. apply andb_prop in Hd as [Hc Hd]. apply negb_true_iff in Hc.
  destruct k as [|k]; cbn [String.get] in Hg.
  - by injection Hg as <-.
  - by apply (IH k).
Qed.

(** Looking for a dot from inside a dotless tail is looking from its start. *)
Lemma rfind_dot_tail (pre name : string) (k : nat) :
  dotless name = true ->
  Logging.rfind_dot (pre ++ name) (k + String.length pre) =
  Logging.rfind_dot (pre ++ name) (String.length pre).
Proof.
  intros Hd. induction k as [|k IH]; [reflexivity|].
  cbn [Nat.add Logging.rfind_dot]. rewrite <- (String.append_correct2 pre name k).
  destruct (String.get k name) as [c|] eqn:Hg; [|exact IH].
  by rewrite (dotless_get name k c Hd Hg).
Qed.

Lemma visited_None (fuel : nat) (name : string) : Logging.visited fuel name None = [].
Proof. by destruct fuel. Qed.

Lemma length_app (a b : string) :
  String.length (a ++ b) = (String.length b + String.length a)%nat.
Proof.
  induction a as [|c a IH].
  { change (String.length b = (String.length b + 0)%nat). lia. }
  change (String.length (String c (a ++ b)) = (String.length b + S (String.length a))%nat).
  cbn [String.length]. rewrite IH. lia.
Qed.

(** The logger of [get_logger] sits right under [smart_planter]. *)
Lemma ancestors_get_logger (name : string) :
  dotless name = true -> Logging.ancestors (Logging.get_logger name) = ["smart_planter"].
Proof.
  intros Hd. unfold Logging.ancestors, Logging.get_logger.
  rewrite length_app, (rfind_dot_tail "smart_planter." name _ Hd).
  change (Logging.rfind_dot ("smart_planter." ++ name) (String.length "smart_planter."))
    with (Some 13%nat).
  change (String.length name + String.length "smart_planter.")%nat
    with (String.length name + 14)%nat.
  replace (String.length name + 14)%nat with (S (String.length name + 13)) by lia.
  cbn [Logging.visited].
  change (String.substring 0 13 ("smart_planter." ++ name)) with "smart_planter".
  change (Logging.rfind_dot ("smart_planter." ++ name) 12) with (@None nat).
  by rewrite visited_None.
Qed.

(** A dotless name has the root logger for parent. *)
Lemma ancestors_dotless (name : string) :
  dotless name = true -> Logging.ancestors name = [].
Proof.
  intros Hd. unfold Logging.ancestors.
  pose proof (rfind_dot_tail "" name (String.length name) Hd) as H.
  change ("" ++ name) with name in H. cbn [String.length] in H.
  rewrite Nat.add_0_r in H. rewrite H. cbn [Logging.rfind_dot]. apply visited_None.
Qed.

Lemma get_logger_not_app (name : string) : Logging.get_logger name <> "smart_planter".
Proof.
  intros H. apply (f_equal String.length) in H.
  unfold Logging.get_logger in H. rewrite length_app in H. cbn in H. lia.
Qed.

End Logging_facts.

(** X16: a [setup_logging] that succeeds leaves the root logger with
    exactly two handlers, the log file of the day and the console,
    whatever handlers it had before; running it again changes nothing,
    and the [logging.basicConfig] of [create_app] that follows it in
    [main] changes nothing either. *)
Theorem setup_logging_replaces_handlers (h : Main.Host) (now : datetime)
    (st st1 : Logging.State) :
  Logging.setup_logging h now st = inr st1 ->
  Logging.root_handlers st1 = [Logging.file_handler now; Logging.console_handler] /\
  Logging.setup_logging h now st1 = inr st1 /\
  Logging.basicConfig_INFO st1 = st1.
Proof.
  intros Hs. pose proof Hs as Hs'. apply setup_logging_inr in Hs' as (level & Hl & Hm & ->).
  split; [reflexivity|]. split; [|reflexivity].
  unfold Logging.setup_logging. rewrite Hm, Hl. cbn [Logging.logger_levels].
  by rewrite insert_insert_eq.
Qed.

Lemma setup_logging_replaces_handlers_witness :
  exists st1,
    Logging.setup_logging bare_host (mkDatetime 2025 9 10 10 0 0 0)
      (Logging.basicConfig_INFO Logging.initial) = inr st1 /\
    Logging.root_handlers st1 =
      [Logging.file_handler (mkDatetime 2025 9 10 10 0 0 0); Logging.console_handler] /\
    Logging.basicConfig_INFO st1 = st1.
Proof.
  destruct (Logging.setup_logging bare_host (mkDatetime 2025 9 10 10 0 0 0)
              (Logging.basicConfig_INFO Logging.initial)) as [e|st1] eqn:Hs;
    [vm_compute in Hs; discriminate Hs|].
  exists st1. split; [reflexivity|].
  by destruct (setup_logging_replaces_handlers _ _ _ _ Hs) as (? & _ & ?).
Defined.

(** X17: whatever LOG_LEVEL is, a record below INFO never reaches the
    console, and every record that reaches the console is written to the
    log file of the day as well. *)
Theorem console_shows_info_and_above (h : Main.Host) (now : datetime)
    (st st1 : Logging.State) (name : string) (level : Z) :
  Logging.setup_logging h now st = inr st1 ->
  In Logging.console_handler (Logging.delivered st1 name level) ->
  Logging.INFO <= level /\
  In (Logging.file_handler now) (Logging.delivered st1 name level).
Proof.
  intros Hs. apply setup_logging_inr in Hs as (level0 & _ & _ & ->).
  rewrite !delivered_after_setup. intros (H0 & He & Hh & _).
  cbn [Logging.handler_level Logging.console_handler] in Hh.
  split; [exact Hh|]. repeat split; try assumption; [|by left].
  cbn [Logging.handler_level Logging.file_handler]. unfold Logging.INFO, Logging.DEBUG in *. lia.
Qed.

Lemma console_shows_info_and_above_witness :
  exists st1,
    Logging.setup_logging (Main.mkHost {[ "LOG_LEVEL" := "debug" ]} true true)
      (mkDatetime 2025 9 10 10 0 0 0) Logging.initial = inr st1 /\
    In Logging.console_handler (Logging.delivered st1 "__main__" 20) /\
    In (Logging.file_handler (mkDatetime 2025 9 10 10 0 0 0))
       (Logging.delivered st1 "__main__" 20).
Proof.
  destruct (Logging.setup_logging (Main.mkHost {[ "LOG_LEVEL" := "debug" ]} true true)
              (mkDatetime 2025 9 10 10 0 0 0) Logging.initial) as [e|st1] eqn:Hs;
    [vm_compute in Hs; discriminate Hs|].
  exists st1. split; [reflexivity|].
  assert (Hc : In Logging.console_handler (Logging.delivered st1 "__main__" 20)).
  { vm_compute in Hs. injection Hs as <-. vm_compute. tauto. }
  split; [exact Hc|].
  by destruct (console_shows_info_and_above _ _ _ _ _ _ Hs Hc) as [_ ?].
Defined.

(** X18: the loggers handed out by [get_logger] do not follow LOG_LEVEL:
    after [setup_logging], a record logged on one of them (with no level
    of its own) is handled, by the log file and by the console, exactly
    when its level is INFO or above. *)
Theorem get_logger_is_at_info (h : Main.Host) (now : datetime)
    (st st1 : Logging.State) (name : string) (level : Z) (hd : Logging.Handler) :
  Logging.setup_logging h now st = inr st1 ->
  dotless name = true ->
  Logging.logger_levels st !! Logging.get_logger name = None ->
  hd = Logging.file_handler now \/ hd = Logging.console_handler ->
  (In hd (Logging.delivered st1 (Logging.get_logger name) level) <-> Logging.INFO <= level).
Proof.
  intros Hs Hd Hn Hhd. apply setup_logging_inr in Hs as (level0 & _ & _ & ->).
  rewrite delivered_after_setup.
  assert (He : Logging.effective_level
                 (Logging.mkState level0 [Logging.file_handler now; Logging.console_handler]
                    (<["smart_planter" := Logging.INFO]> (Logging.logger_levels st)))
                 (Logging.get_logger name) = Logging.INFO).
  { unfold Logging.effective_level. rewrite (ancestors_get_logger name Hd).
    cbn [Logging.first_level Logging.logger_levels].
    rewrite lookup_insert_ne by (intros H'; by apply (get_logger_not_app name)).
    rewrite Hn. by rewrite lookup_insert_eq. }
  rewrite He. unfold Logging.INFO.
  destruct Hhd as [-> | ->]; cbn [Logging.handler_level Logging.file_handler Logging.console_handler];
    unfold Logging.INFO, Logging.DEBUG; intuition lia.
Qed.

Lemma get_logger_is_at_info_witness :
  exists st1,
    Logging.setup_logging (Main.mkHost {[ "LOG_LEVEL" := "ERROR" ]} true true)
      (mkDatetime 2025 9 10 10 0 0 0) Logging.initial = inr st1 /\
    (In Logging.console_handler (Logging.delivered st1 (Logging.get_logger "camera") 20) <->
     Logging.INFO <= 20).
Proof.
  destruct (Logging.setup_logging (Main.mkHost {[ "LOG_LEVEL" := "ERROR" ]} true true)
              (mkDatetime 2025 9 10 10 0 0 0) Logging.initial) as [e|st1] eqn:Hs;
    [vm_compute in Hs; discriminate Hs|].
  exists st1. split; [reflexivity|].
  apply (get_logger_is_at_info _ _ _ _ "camera" 20 _ Hs); [reflexivity | reflexivity | by right].
Defined.

(** X19: a logger right under the root logger with no level of its own,
    as the one of [main.py], follows LOG_LEVEL: after [setup_logging] its
    records reach the log file from that level on (and from DEBUG on),
    and the console from that level on and from INFO on. *)
Theorem top_logger_follows_log_level (h : Main.Host) (now : datetime)
    (st st1 : Logging.State) (name : string) (level : Z) :
  Logging.setup_logging h now st = inr st1 ->
  dotless name = true ->
  name <> "smart_planter" ->
  Logging.logger_levels st !! name = None ->
  exists log_level,
    Logging.level_of_name
      (Main.upper (Config.environ_get (Main.environ h) "LOG_LEVEL" "INFO")) = Some log_level /\
    (In (Logging.file_handler now) (Logging.delivered st1 name level) <->
     0 < level /\ log_level <= level /\ Logging.DEBUG <= level) /\
    (In Logging.console_handler (Logging.delivered st1 name level) <->
     0 < level /\ log_level <= level /\ Logging.INFO <= level).
Proof.
  intros Hs Hd Hne Hn. apply setup_logging_inr in Hs as (level0 & Hl & _ & ->).
  exists level0. split; [exact Hl|].
  rewrite !delivered_after_setup.
  assert (He : Logging.effective_level
                 (Logging.mkState level0 [Logging.file_handler now; Logging.console_handler]
                    (<["smart_planter" := Logging.INFO]> (Logging.logger_levels st)))
                 name = level0).
  { unfold Logging.effective_level. rewrite (ancestors_dotless name Hd).
    cbn [Logging.first_level Logging.logger_levels Logging.root_level].
    rewrite lookup_insert_ne by congruence. by rewrite Hn. }
  rewrite He.
  cbn [Logging.handler_level Logging.file_handler Logging.console_handler].
  assert (Hdiff : Logging.file_handler now <> Logging.console_handler) by discriminate.
  split; intuition congruence.
Qed.

Lemma top_logger_follows_log_level_witness :
  exists st1 log_level,
    Logging.setup_logging (Main.mkHost {[ "LOG_LEVEL" := "warning" ]} true true)
      (mkDatetime 2025 9 10 10 0 0 0) Logging.initial = inr st1 /\
    Logging.level_of_name
      (Main.upper (Config.environ_get {[ "LOG_LEVEL" := "warning" ]} "LOG_LEVEL" "INFO")) =
      Some log_level /\
    (In Logging.console_handler (Logging.delivered st1 "__main__" 20) <->
     0 < 20 /\ log_level <= 20 /\ Logging.INFO <= 20).
Proof.
  destruct (Logging.setup_logging (Main.mkHost {[ "LOG_LEVEL" := "warning" ]} true true)
              (mkDatetime 2025 9 10 10 0 0 0) Logging.initial) as [e|st1] eqn:Hs;
    [vm_compute in Hs; discriminate Hs|].
  destruct (top_logger_follows_log_level _ _ _ _ "__main__" 20 Hs)
    as (log_level & Hl & _ & Hc); [reflexivity | discriminate | reflexivity |].
  exists st1, log_level. split; [reflexivity|]. split; [exact Hl | exact Hc].
Defined.

(* ===================================================================== *)
(** * Further properties of [app.py] *)
(* ===================================================================== *)

Section Timestamps.

Lemma length_zpad (n : nat) (v : Z) (rest : string) :
  String.length (zpad n v rest) = (n + String.length rest)%nat.
Proof.
  revert v rest. induction n as [|n IH]; intros v rest; [reflexivity|].
  change (zpad (S n) v rest) with (zpad n (v / 10) (String (digit (v mod 10)) rest)).
  rewrite IH. cbn [String.length]. lia.
Qed.

Lemma length_isoformat (t : datetime) :
  String.length (isoformat t) = if microsecond t =? 0 then 19%nat else 26%nat.
Proof.
  unfold isoformat. destruct (microsecond t =? 0).
  - change (strftime "%Y-%m-%dT%H:%M:%S" t)
      with (zpad 4 (year t) (String "-" (zpad 2 (month t) (String "-" (zpad 2 (day t) (String "T" (zpad 2 (hour t) (String ":" (zpad 2 (minute t) (String ":" (zpad 2 (second t) ""))))))))))).
    repeat (rewrite length_zpad; cbn [String.length]). reflexivity.
  - change (strftime "%Y-%m-%dT%H:%M:%S.%f" t)
      with (zpad 4 (year t) (String "-" (zpad 2 (month t) (String "-" (zpad 2 (day t) (String "T" (zpad 2 (hour t) (String ":" (zpad 2 (minute t) (String ":" (zpad 2 (second t) (String "." (zpad 6 (microsecond t) ""))))))))))))).
    repeat (rewrite length_zpad; cbn [String.length]). reflexivity.
Qed.

End Timestamps.

(** X20: the timestamp the status and the watering endpoints answer with
    comes in two shapes: nineteen characters (to the second) when the
    clock reading has no microseconds, twenty-six (with six decimals)
    otherwise. *)
Theorem timestamp_has_two_shapes (fromtimestamp : Z -> datetime) (s : Server) :
  let now := fromtimestamp (clock (world s) (ticks (world s))) in
  exists stamp watered,
    member "timestamp" (fst (api_status fromtimestamp s)) = Some (JString stamp) /\
    member "timestamp" (fst (api_watering fromtimestamp s)) = Some (JString watered) /\
    stamp = watered /\
    String.length stamp = if microsecond now =? 0 then 19%nat else 26%nat.
Proof.
  intros now. exists (isoformat now), (isoformat now).
  repeat split. apply length_isoformat.
Qed.


